(** * The EtherDelta exchange client of [api/etherdelta.py]

    A shallow embedding of the order model ([OnChainOrder], [OffChainOrder],
    [LogOrder], [LogCancel]), of the off-chain signing scheme of
    [EtherDelta.place_order_offchain] and of the on-chain order tracker
    ([EtherDelta.active_onchain_orders], [EtherDelta.place_order_onchain]),
    followed by the properties the specification states about them.

    Python objects become records, the mutable attributes of the client and
    the network become an explicit world threaded through a state-and-exception
    monad, and the remote parties (contract, signer, relay) become oracles
    collected in an environment. *)

From Stdlib Require Import ZArith List String Ascii Lia.
From Stdlib.Strings Require Import Byte.
From stdpp Require Import base countable gmap sets list.

Local Open Scope Z_scope.

(** ** Chain primitives *)

Definition bytes := list byte.

#[global] Instance byte_eq_dec : EqDecision byte := Byte.byte_eq_dec.

#[global] Instance byte_countable : Countable byte :=
  inj_countable Byte.to_N Byte.of_N Byte.of_to_N.

Definition byte_of_Z (z : Z) : byte :=
  default x00 (Byte.of_N (Z.to_N (z mod 256))).

Definition Z_of_byte (b : byte) : Z := Z.of_N (Byte.to_N b).

(** Modelled from the spec: the class [Address] of [api/__init__.py] is not
    part of the sources at hand.  The spec calls it a 20-byte chain
    identifier, immutable, with equality by byte value; [address] holds those
    bytes (the source keeps them as a hexadecimal string). *)
Record Address := mkAddress { address : bytes }.

#[global] Instance Address_eq_dec : EqDecision Address.
Proof. solve_decision. Defined.

#[global] Instance Address_countable : Countable Address :=
  inj_countable' address mkAddress (fun a => match a with mkAddress _ => eq_refl end).

Definition Address__eq__ (self other : Address) : bool :=
  bool_decide (address self = address other).

(** Modelled from the spec: the class [Wad] of [api/numeric.py] is not part
    of the sources at hand.  The spec calls it a fixed-point quantity backed
    by an integer, with equality by the underlying integer. *)
Record Wad := mkWad { value : Z }.

#[global] Instance Wad_eq_dec : EqDecision Wad.
Proof. solve_decision. Defined.

#[global] Instance Wad_countable : Countable Wad :=
  inj_countable' value mkWad (fun a => match a with mkWad _ => eq_refl end).

Definition Wad__eq__ (self other : Wad) : bool := value self =? value other.

(** [Receipt] is opaque to this module: only its presence matters. *)
Record Receipt := mkReceipt { transaction_hash : Z }.

(** ** The order model

    Each class is a record in a module of its name, so that the fields keep
    the names they have in the source.  The constructors of the source store
    their arguments unchanged; the records hold them at the types the
    constructors are annotated with. *)

Module OnChainOrder.
Record t := mk
  { token_get : Address;
    amount_get : Wad;
    token_give : Address;
    amount_give : Wad;
    expires : Z;
    nonce : Z;
    user : Address }.

Definition to_tuple (o : t) : Address * Wad * Address * Wad * Z * Z * Address :=
  (token_get o, amount_get o, token_give o, amount_give o, expires o, nonce o, user o).

Definition of_tuple (p : Address * Wad * Address * Wad * Z * Z * Address) : t :=
  let '(tg, ag, tk, ak, e, n, u) := p in mk tg ag tk ak e n u.
End OnChainOrder.

#[global] Instance OnChainOrder_eq_dec : EqDecision OnChainOrder.t.
Proof. solve_decision. Defined.

#[global] Instance OnChainOrder_countable : Countable OnChainOrder.t :=
  inj_countable' OnChainOrder.to_tuple OnChainOrder.of_tuple
    (fun o => match o with OnChainOrder.mk _ _ _ _ _ _ _ => eq_refl end).

Module OffChainOrder.
Record t := mk
  { token_get : Address;
    amount_get : Wad;
    token_give : Address;
    amount_give : Wad;
    expires : Z;
    nonce : Z;
    user : Address;
    v : Z;
    r : bytes;
    s : bytes }.
End OffChainOrder.

Module LogOrder.
Record t := mk
  { token_get : Address;
    amount_get : Wad;
    token_give : Address;
    amount_give : Wad;
    expires : Z;
    nonce : Z;
    user : Address }.

Definition to_order (self : t) : OnChainOrder.t :=
  OnChainOrder.mk (token_get self) (amount_get self) (token_give self)
    (amount_give self) (expires self) (nonce self) (user self).
End LogOrder.

Module LogCancel.
Record t := mk
  { token_get : Address;
    amount_get : Wad;
    token_give : Address;
    amount_give : Wad;
    expires : Z;
    nonce : Z;
    user : Address;
    v : Z;
    r : bytes;
    s : bytes }.
End LogCancel.

(** ** Dynamically typed values

    The values a caller can hand to a method of the client.  [isinstance]
    checks and attribute look-ups of the source are decided on the
    constructor. *)
Inductive PyVal :=
| PyNone
| PyInt (n : Z)
| PyStr (s : string)
| PyBytes (b : bytes)
| PyAddress (a : Address)
| PyWad (w : Wad)
| PyReceipt (r : Receipt)
| PyOnChainOrder (o : OnChainOrder.t)
| PyOffChainOrder (o : OffChainOrder.t)
| PyLogOrder (l : LogOrder.t)
| PyLogCancel (l : LogCancel.t).

(** [isinstance(x, Order)]: both order classes derive from [Order], the two
    log classes do not. *)
Definition isinstance_Order (x : PyVal) : bool :=
  match x with
  | PyOnChainOrder _ | PyOffChainOrder _ => true
  | _ => false
  end.

(** [OffChainOrder.__eq__] *)
Definition OffChainOrder__eq__ (self : OffChainOrder.t) (other : PyVal) : bool :=
  match other with
  | PyOffChainOrder other =>
      Address__eq__ (OffChainOrder.token_get self) (OffChainOrder.token_get other) &&
      Wad__eq__ (OffChainOrder.amount_get self) (OffChainOrder.amount_get other) &&
      Address__eq__ (OffChainOrder.token_give self) (OffChainOrder.token_give other) &&
      Wad__eq__ (OffChainOrder.amount_give self) (OffChainOrder.amount_give other) &&
      (OffChainOrder.expires self =? OffChainOrder.expires other) &&
      (OffChainOrder.nonce self =? OffChainOrder.nonce other) &&
      Address__eq__ (OffChainOrder.user self) (OffChainOrder.user other) &&
      (OffChainOrder.v self =? OffChainOrder.v other) &&
      bool_decide (OffChainOrder.r self = OffChainOrder.r other) &&
      bool_decide (OffChainOrder.s self = OffChainOrder.s other)
  | _ => false
  end.

(** [OnChainOrder.__eq__] *)
Definition OnChainOrder__eq__ (self : OnChainOrder.t) (other : PyVal) : bool :=
  match other with
  | PyOnChainOrder other =>
      Address__eq__ (OnChainOrder.token_get self) (OnChainOrder.token_get other) &&
      Wad__eq__ (OnChainOrder.amount_get self) (OnChainOrder.amount_get other) &&
      Address__eq__ (OnChainOrder.token_give self) (OnChainOrder.token_give other) &&
      Wad__eq__ (OnChainOrder.amount_give self) (OnChainOrder.amount_give other) &&
      (OnChainOrder.expires self =? OnChainOrder.expires other) &&
      (OnChainOrder.nonce self =? OnChainOrder.nonce other) &&
      Address__eq__ (OnChainOrder.user self) (OnChainOrder.user other)
  | _ => false
  end.

(** Python's [hash] on the values stored in orders.  The builtin hashes of
    integers, byte strings and tuples, and the [__hash__] methods of
    [Address] and [Wad], are an interface of this development. *)
Class Hasher := {
  hash_int : Z -> Z;
  hash_bytes : bytes -> Z;
  hash_Address : Address -> Z;
  hash_Wad : Wad -> Z;
  hash_tuple : list Z -> Z }.

(** [OffChainOrder.__hash__] *)
Definition OffChainOrder__hash__ `{Hasher} (self : OffChainOrder.t) : Z :=
  hash_tuple
    [ hash_Address (OffChainOrder.token_get self);
      hash_Wad (OffChainOrder.amount_get self);
      hash_Address (OffChainOrder.token_give self);
      hash_Wad (OffChainOrder.amount_give self);
      hash_int (OffChainOrder.expires self);
      hash_int (OffChainOrder.nonce self);
      hash_Address (OffChainOrder.user self);
      hash_int (OffChainOrder.v self);
      hash_bytes (OffChainOrder.r self);
      hash_bytes (OffChainOrder.s self) ].

(** [OnChainOrder.__hash__] *)
Definition OnChainOrder__hash__ `{Hasher} (self : OnChainOrder.t) : Z :=
  hash_tuple
    [ hash_Address (OnChainOrder.token_get self);
      hash_Wad (OnChainOrder.amount_get self);
      hash_Address (OnChainOrder.token_give self);
      hash_Wad (OnChainOrder.amount_give self);
      hash_int (OnChainOrder.expires self);
      hash_int (OnChainOrder.nonce self);
      hash_Address (OnChainOrder.user self) ].

(** ** Byte strings, hexadecimal text and substrings *)

(** [value.to_bytes(n, 'big')]: the [n] low-order bytes of [v], most
    significant first. *)
Fixpoint to_bytes_be (n : nat) (v : Z) : bytes :=
  match n with
  | O => []
  | S n' => to_bytes_be n' (v / 256) ++ [byte_of_Z v]
  end.

(** [int.from_bytes(b, 'big')] *)
Definition from_bytes_be (b : bytes) : Z :=
  fold_left (fun acc x => acc * 256 + Z_of_byte x) b 0.

Definition hex_digit (c : ascii) : option Z :=
  let n := Z.of_nat (nat_of_ascii c) in
  if (48 <=? n) && (n <=? 57) then Some (n - 48)
  else if (97 <=? n) && (n <=? 102) then Some (n - 87)
  else if (65 <=? n) && (n <=? 70) then Some (n - 55)
  else None.

(** [bytes.fromhex] on text made of pairs of hexadecimal digits; any other
    text is a [ValueError], rendered as [None]. *)
Fixpoint fromhex (s : string) : option bytes :=
  match s with
  | EmptyString => Some []
  | String c1 (String c2 rest) =>
      match hex_digit c1, hex_digit c2, fromhex rest with
      | Some h, Some l, Some bs => Some (byte_of_Z (h * 16 + l) :: bs)
      | _, _, _ => None
      end
  | String _ EmptyString => None
  end.

Fixpoint startswith (s p : string) : bool :=
  match p, s with
  | EmptyString, _ => true
  | String c p', String d s' => bool_decide (c = d) && startswith s' p'
  | String _ _, EmptyString => false
  end.

(** [p in s] on strings *)
Fixpoint str_in (p s : string) : bool :=
  startswith s p ||
  match s with
  | EmptyString => false
  | String _ s' => str_in p s'
  end.

(** The literal ['"success"'] of [place_order_offchain]: the word between
    two double-quote characters, nine characters in all. *)
Definition dquote : ascii := ascii_of_nat 34.

Definition success_literal : string :=
  String dquote ("success" ++ String dquote EmptyString)%string.

(** ** Exceptions and results *)

Inductive Exn :=
| AssertionError
| AttributeError
| KeyError
| TypeError
| ValueError
| EncodingError      (* raised by the ABI encoders of [eth_abi] *)
| SignerError        (* the [eth_sign] request failed *)
| Timeout            (* [requests.exceptions.Timeout] *)
| ConnectionError.   (* [requests.exceptions.ConnectionError] *)

Inductive Result (A : Type) :=
| Ok (a : A)
| Raise (e : Exn).
Arguments Ok {A} a.
Arguments Raise {A} e.

Definition result_bind {A B} (m : Result A) (k : A -> Result B) : Result B :=
  match m with
  | Ok a => k a
  | Raise e => Raise e
  end.

(** ** What travels over the network *)

(** The positional arguments the signature-accepting contract functions
    share, in the order the source passes them. *)
Module Args.
Record t := mk
  { tokenGet : bytes;
    amountGet : Z;
    tokenGive : bytes;
    amountGive : Z;
    expires : Z;
    nonce : Z;
    user : bytes;
    v : Z;
    r : bytes;
    s : bytes }.
End Args.

(** Read-only invocations, [self._contract.call().f(...)]. *)
Inductive ContractCall :=
| call_balanceOf (token user : bytes)
| call_availableVolume (a : Args.t)
| call_amountFilled (a : Args.t)
| call_testTrade (a : Args.t) (amount : Z) (sender : Address).

(** State-changing invocations, [self._contract.transact(...).f(...)]. *)
Inductive ContractTx :=
| tx_deposit (value : Z)
| tx_withdraw (amount : Z)
| tx_depositToken (token : bytes) (amount : Z)
| tx_withdrawToken (token : bytes) (amount : Z)
| tx_order (tokenGet : bytes) (amountGet : Z) (tokenGive : bytes) (amountGive : Z)
           (expires nonce : Z)
| tx_trade (a : Args.t) (amount : Z)
| tx_cancelOrder (tokenGet : bytes) (amountGet : Z) (tokenGive : bytes) (amountGive : Z)
                 (expires nonce : Z) (v : Z) (r s : bytes).

Inductive EventName := Order | Cancel.

(** Every request that leaves the process, in the order it is made. *)
Inductive NetEvent :=
| NetCall (c : ContractCall)
| NetTransact (t : ContractTx)
| NetSubscribe (event : EventName)
| NetPastEvents (event : EventName) (number_of_past_blocks : Z)
| NetSign (account : Address) (data_hash : bytes)
| NetPost (contractAddr : Address) (order : OffChainOrder.t).

(** What [requests.post] does: it raises (on a timeout or a transport
    failure) or returns a response, whatever its status code. *)
Inductive HttpOutcome :=
| HttpRaises (e : Exn)
| HttpResponse (status_code : Z) (text : string).

(** ** The environment: the client's fixed attributes and the remote parties

    The contract, the signer, the relay and the random source answer as
    functions of the request; an operation runs against one environment. *)
Record Env := {
  (** [self.address] *)
  self_address : Address;
  (** [self.web3.eth.defaultAccount] *)
  defaultAccount : Address;
  (** [hashlib.sha256(m).digest()] *)
  sha256 : bytes -> bytes;
  (** the entropy behind the successive calls of [random.randint] *)
  randint : nat -> Z;
  (** the integer a read-only call returns *)
  contract_call : ContractCall -> Z;
  (** the boolean [testTrade] returns *)
  contract_call_bool : ContractCall -> bool;
  (** the receipt of a mined transaction, [None] when it failed *)
  transact_receipt : ContractTx -> option Receipt;
  (** the historical logs of the last [n] blocks *)
  past_Order_logs : Z -> list LogOrder.t;
  past_Cancel_logs : Z -> list LogCancel.t;
  (** the [eth_sign] request: the signature as hexadecimal text *)
  eth_sign : Address -> bytes -> Result string;
  (** the relay's answer to the posted order *)
  relay : Address -> OffChainOrder.t -> HttpOutcome }.

(** ** The world: the client's mutable state and the network trace *)

(** Event handlers: the lambda [active_onchain_orders] registers, or a
    caller's callback, which is opaque here. *)
Inductive Handler :=
| TrackerHandler
| CallerHandler (id : nat).

Record World := mkWorld {
  (** [self._onchain_orders]: [None] until the first query *)
  _onchain_orders : option (gset OnChainOrder.t);
  (** the handlers registered through [_on_event] *)
  handlers : list (EventName * Handler);
  (** how many random numbers were drawn *)
  draws : nat;
  (** the requests made so far, oldest first *)
  trace : list NetEvent }.

Definition set_onchain_orders (o : option (gset OnChainOrder.t)) (w : World) : World :=
  mkWorld o (handlers w) (draws w) (trace w).

(** ** The monad of the client's methods: state and exceptions *)

Definition M (A : Type) : Type := World -> Result A * World.

Definition ret {A} (a : A) : M A := fun w => (Ok a, w).

Definition raise {A} (e : Exn) : M A := fun w => (Raise e, w).

Definition bind {A B} (m : M A) (k : A -> M B) : M B :=
  fun w =>
    match m w with
    | (Ok a, w') => k a w'
    | (Raise e, w') => (Raise e, w')
    end.

Notation "'let*' x ':=' m 'in' k" := (bind m (fun x => k))
  (at level 10, x name, m at level 100, k at level 200).
Notation "m ';;' k" := (bind m (fun _ => k))
  (at level 100, k at level 200, right associativity).

Definition lift {A} (r : Result A) : M A := fun w => (r, w).

Definition emit (e : NetEvent) : M unit :=
  fun w => (Ok tt, mkWorld (_onchain_orders w) (handlers w) (draws w) (trace w ++ [e])).

Fixpoint for_each {A} (l : list A) (body : A -> M unit) : M unit :=
  match l with
  | [] => ret tt
  | x :: rest => body x ;; for_each rest body
  end.

(** [assert(b)] *)
Definition py_assert (b : bool) : M unit :=
  if b then ret tt else raise AssertionError.

(** Reading [self._onchain_orders]. *)
Definition get_onchain_orders : M (option (gset OnChainOrder.t)) :=
  fun w => (Ok (_onchain_orders w), w).

(** [self._onchain_orders = set()] *)
Definition new_onchain_orders : M unit :=
  fun w => (Ok tt, set_onchain_orders (Some ∅) w).

(** [self._onchain_orders.add(order)]; on [None] the attribute [add] is
    missing. *)
Definition onchain_orders_add (order : OnChainOrder.t) : M unit :=
  fun w =>
    match _onchain_orders w with
    | Some s => (Ok tt, set_onchain_orders (Some ({[order]} ∪ s)) w)
    | None => (Raise AttributeError, w)
    end.

(** [self._onchain_orders.remove(order)]: a [KeyError] when the order is not
    a member. *)
Definition onchain_orders_remove (order : OnChainOrder.t) : M unit :=
  fun w =>
    match _onchain_orders w with
    | Some s =>
        if decide (order ∈ s)
        then (Ok tt, set_onchain_orders (Some (s ∖ {[order]})) w)
        else (Raise KeyError, w)
    | None => (Raise AttributeError, w)
    end.

(** [list(self._onchain_orders)]; [None] is not iterable. *)
Definition onchain_orders_list : M (list OnChainOrder.t) :=
  fun w =>
    match _onchain_orders w with
    | Some s => (Ok (elements s), w)
    | None => (Raise TypeError, w)
    end.

(** ** The ABI encoders of [place_order_offchain]

    [get_single_encoder] belongs to [eth_abi]: the address encoder accepts a
    20-byte address and yields its 32-byte word, left-padded with zeros; the
    [uint256] encoder accepts an integer of [0 .. 2^256 - 1] and yields its 32
    big-endian bytes.  Both raise on any other value. *)
Definition abi_word_of_address (a : bytes) : Result bytes :=
  if (length a =? 20)%nat then Ok (repeat x00 12 ++ a) else Raise EncodingError.

Definition abi_word_of_uint256 (n : Z) : Result bytes :=
  if (0 <=? n) && (n <? 2 ^ 256) then Ok (to_bytes_be 32 n) else Raise EncodingError.

(** [encode_address]: the word without its first twelve bytes, [...[12:]] *)
Definition encode_address (a : Address) : Result bytes :=
  result_bind (abi_word_of_address (address a)) (fun word => Ok (skipn 12 word)).

(** [encode_uint256] *)
Definition encode_uint256 (n : Z) : Result bytes := abi_word_of_uint256 n.

(** The argument of [hashlib.sha256] in [place_order_offchain]: the seven
    encodings, evaluated and concatenated from left to right. *)
Definition order_message (contract token_get : Address) (amount_get : Wad)
    (token_give : Address) (amount_give : Wad) (expires nonce : Z) : Result bytes :=
  result_bind (encode_address contract) (fun b1 =>
  result_bind (encode_address token_get) (fun b2 =>
  result_bind (encode_uint256 (value amount_get)) (fun b3 =>
  result_bind (encode_address token_give) (fun b4 =>
  result_bind (encode_uint256 (value amount_give)) (fun b5 =>
  result_bind (encode_uint256 expires) (fun b6 =>
  result_bind (encode_uint256 nonce) (fun b7 =>
  Ok (b1 ++ b2 ++ b3 ++ b4 ++ b5 ++ b6 ++ b7)))))))).

(** ** Attribute access on an order argument

    The ten arguments every signature-accepting method reads off [order]:
    [order.token_get.address], [order.amount_get.value], ..., and
    [order.v if hasattr(order, 'v') else 0] with its two companions.  Any
    object carrying the seven common attributes passes; the others raise
    [AttributeError] on the first look-up. *)
Definition order_args (order : PyVal) : Result Args.t :=
  match order with
  | PyOnChainOrder o =>
      Ok (Args.mk (address (OnChainOrder.token_get o)) (value (OnChainOrder.amount_get o))
            (address (OnChainOrder.token_give o)) (value (OnChainOrder.amount_give o))
            (OnChainOrder.expires o) (OnChainOrder.nonce o)
            (address (OnChainOrder.user o)) 0 [] [])
  | PyOffChainOrder o =>
      Ok (Args.mk (address (OffChainOrder.token_get o)) (value (OffChainOrder.amount_get o))
            (address (OffChainOrder.token_give o)) (value (OffChainOrder.amount_give o))
            (OffChainOrder.expires o) (OffChainOrder.nonce o)
            (address (OffChainOrder.user o))
            (OffChainOrder.v o) (OffChainOrder.r o) (OffChainOrder.s o))
  | PyLogOrder o =>
      Ok (Args.mk (address (LogOrder.token_get o)) (value (LogOrder.amount_get o))
            (address (LogOrder.token_give o)) (value (LogOrder.amount_give o))
            (LogOrder.expires o) (LogOrder.nonce o)
            (address (LogOrder.user o)) 0 [] [])
  | PyLogCancel o =>
      Ok (Args.mk (address (LogCancel.token_get o)) (value (LogCancel.amount_get o))
            (address (LogCancel.token_give o)) (value (LogCancel.amount_give o))
            (LogCancel.expires o) (LogCancel.nonce o)
            (address (LogCancel.user o))
            (LogCancel.v o) (LogCancel.r o) (LogCancel.s o))
  | _ => Raise AttributeError
  end.

(** [assert(isinstance(x, Wad))], then [x] at that type. *)
Definition assert_isinstance_Wad (x : PyVal) : M Wad :=
  match x with
  | PyWad w => ret w
  | _ => raise AssertionError
  end.

(** [assert(isinstance(x, Address))], then [x] at that type. *)
Definition assert_isinstance_Address (x : PyVal) : M Address :=
  match x with
  | PyAddress a => ret a
  | _ => raise AssertionError
  end.

(** [s[i:j]] on text *)
Definition str_slice (i j : nat) (s : string) : string := substring i (j - i) s.

(** [bytes.fromhex(s)] as a result *)
Definition bytes_fromhex (s : string) : Result bytes :=
  match fromhex s with
  | Some b => Ok b
  | None => Raise ValueError
  end.

(** [ord(b)] on a byte string: its only byte, a [TypeError] otherwise. *)
Definition ord (b : bytes) : Result Z :=
  match b with
  | [x] => Ok (Z_of_byte x)
  | _ => Raise TypeError
  end.

(** ** The client: [class EtherDelta] *)

Section EtherDelta.
Context (E : Env).

(** [ETH_TOKEN], the zero address *)
Definition ETH_TOKEN : Address := mkAddress (repeat x00 20).

(** [random_nonce]: [random.randint(1, 2**32 - 1)], both ends included. *)
Definition random_nonce : M Z :=
  fun w =>
    (Ok (1 + randint E (draws w) mod (2 ^ 32 - 1)),
     mkWorld (_onchain_orders w) (handlers w) (S (draws w)) (trace w)).

(** Modelled from the spec: [Contract._transact] of [api/__init__.py] is
    not part of the sources at hand.  The spec has it submit the
    transaction and wait until it is mined, and yield a receipt, or a
    no-result value when the transaction failed. *)
Definition _transact (tx : ContractTx) : M (option Receipt) :=
  emit (NetTransact tx) ;; ret (transact_receipt E tx).

(** Modelled from the spec: [Contract._on_event] is not part of the sources
    at hand.  The spec has it register a handler that an external delivery
    mechanism invokes whenever a matching log is observed. *)
Definition _on_event (event : EventName) (handler : Handler) : M unit :=
  emit (NetSubscribe event) ;;
  fun w => (Ok tt, mkWorld (_onchain_orders w) (handlers w ++ [(event, handler)])
                     (draws w) (trace w)).

(** Modelled from the spec: [Contract._past_events] is not part of the
    sources at hand.  The spec has it query the historical logs of an event
    over a lookback window given in blocks. *)
Definition _past_Order_events (number_of_past_blocks : Z) : M (list LogOrder.t) :=
  emit (NetPastEvents Order number_of_past_blocks) ;;
  ret (past_Order_logs E number_of_past_blocks).

Definition _past_Cancel_events (number_of_past_blocks : Z) : M (list LogCancel.t) :=
  emit (NetPastEvents Cancel number_of_past_blocks) ;;
  ret (past_Cancel_logs E number_of_past_blocks).

(** [self._contract.call().f(...)] returning an integer *)
Definition call (c : ContractCall) : M Z :=
  emit (NetCall c) ;; ret (contract_call E c).

(** [self._contract.call().testTrade(...)] *)
Definition call_bool (c : ContractCall) : M bool :=
  emit (NetCall c) ;; ret (contract_call_bool E c).

Definition on_order (handler : Handler) : M unit := _on_event Order handler.

Definition on_cancel (handler : Handler) : M unit := _on_event Cancel handler.

Definition past_order (number_of_past_blocks : Z) : M (list LogOrder.t) :=
  _past_Order_events number_of_past_blocks.

Definition past_cancel (number_of_past_blocks : Z) : M (list LogCancel.t) :=
  _past_Cancel_events number_of_past_blocks.

Definition deposit (amount : PyVal) : M (option Receipt) :=
  let* amount := assert_isinstance_Wad amount in
  _transact (tx_deposit (value amount)).

Definition withdraw (amount : PyVal) : M (option Receipt) :=
  let* amount := assert_isinstance_Wad amount in
  _transact (tx_withdraw (value amount)).

Definition balance_of (user : PyVal) : M Wad :=
  let* user := assert_isinstance_Address user in
  let* n := call (call_balanceOf (address ETH_TOKEN) (address user)) in
  ret (mkWad n).

Definition deposit_token (token amount : PyVal) : M (option Receipt) :=
  let* token := assert_isinstance_Address token in
  let* amount := assert_isinstance_Wad amount in
  _transact (tx_depositToken (address token) (value amount)).

Definition withdraw_token (token amount : PyVal) : M (option Receipt) :=
  let* token := assert_isinstance_Address token in
  let* amount := assert_isinstance_Wad amount in
  _transact (tx_withdrawToken (address token) (value amount)).

Definition balance_of_token (token user : PyVal) : M Wad :=
  let* token := assert_isinstance_Address token in
  let* user := assert_isinstance_Address user in
  let* n := call (call_balanceOf (address token) (address user)) in
  ret (mkWad n).

(** [amount_available]: no [isinstance] check; the attributes are read
    while the arguments of the call are evaluated. *)
Definition amount_available (order : PyVal) : M Wad :=
  let* a := lift (order_args order) in
  let* n := call (call_availableVolume a) in
  ret (mkWad n).

(** [amount_filled]: no [isinstance] check either. *)
Definition amount_filled (order : PyVal) : M Wad :=
  let* a := lift (order_args order) in
  let* n := call (call_amountFilled a) in
  ret (mkWad n).

Definition trade (order amount : PyVal) : M (option Receipt) :=
  py_assert (isinstance_Order order) ;;
  let* amount := assert_isinstance_Wad amount in
  let* a := lift (order_args order) in
  _transact (tx_trade a (value amount)).

Definition can_trade (order amount : PyVal) : M bool :=
  py_assert (isinstance_Order order) ;;
  let* amount := assert_isinstance_Wad amount in
  let* a := lift (order_args order) in
  call_bool (call_testTrade a (value amount) (defaultAccount E)).

(** [cancel_order]: the contract's [cancelOrder] takes no [user]. *)
Definition cancel_order (order : PyVal) : M (option Receipt) :=
  py_assert (isinstance_Order order) ;;
  let* a := lift (order_args order) in
  _transact (tx_cancelOrder (Args.tokenGet a) (Args.amountGet a) (Args.tokenGive a)
               (Args.amountGive a) (Args.expires a) (Args.nonce a)
               (Args.v a) (Args.r a) (Args.s a)).

(** The body of the pruning loop of [active_onchain_orders]. *)
Definition prune_order (order : OnChainOrder.t) : M unit :=
  let* filled := amount_filled (PyOnChainOrder order) in
  if Wad__eq__ filled (OnChainOrder.amount_get order)
  then onchain_orders_remove order
  else ret tt.

(** The lambda [active_onchain_orders] hands to [on_order], and a caller's
    callback, which does not touch the client. *)
Definition run_handler (h : Handler) (log : LogOrder.t) : M unit :=
  match h with
  | TrackerHandler => onchain_orders_add (LogOrder.to_order log)
  | CallerHandler _ => ret tt
  end.

Definition active_onchain_orders : M (list OnChainOrder.t) :=
  let* current := get_onchain_orders in
  match current with
  | None =>
      new_onchain_orders ;;
      on_order TrackerHandler ;;
      let* past := past_order 1000000 in
      for_each past (fun old_order => onchain_orders_add (LogOrder.to_order old_order))
  | Some _ => ret tt
  end ;;
  let* snapshot := onchain_orders_list in
  for_each snapshot prune_order ;;
  onchain_orders_list.

(** [place_order_onchain] checks no types; it is taken at the types its
    parameters are annotated with. *)
Definition place_order_onchain (token_get : Address) (amount_get : Wad)
    (token_give : Address) (amount_give : Wad) (expires : Z) : M (option Receipt) :=
  let* nonce := random_nonce in
  let* result := _transact (tx_order (address token_get) (value amount_get)
                              (address token_give) (value amount_give) expires nonce) in
  let* current := get_onchain_orders in
  match result, current with
  | Some _, Some _ =>
      onchain_orders_add (OnChainOrder.mk token_get amount_get token_give amount_give
                            expires nonce (defaultAccount E))
  | _, _ => ret tt
  end ;;
  ret result.

(** [_eth_sign]: the [eth_sign] request, its answer as text. *)
Definition _eth_sign (account : Address) (data_hash : bytes) : M string :=
  emit (NetSign account data_hash) ;; lift (eth_sign E account data_hash).

(** [requests.post(url, data={'message': order._to_json(self.address)},
    timeout=15)]: the relay receives the order and the contract address;
    the JSON text that carries them is not modelled. *)
Definition requests_post (order : OffChainOrder.t) : M string :=
  emit (NetPost (self_address E) order) ;;
  match relay E (self_address E) order with
  | HttpRaises e => raise e
  | HttpResponse _ text => ret text
  end.

(** [place_order_offchain] checks no types either. *)
Definition place_order_offchain (token_get : Address) (amount_get : Wad)
    (token_give : Address) (amount_give : Wad) (expires : Z)
    : M (option OffChainOrder.t) :=
  let* nonce := random_nonce in
  let* message := lift (order_message (self_address E) token_get amount_get
                          token_give amount_give expires nonce) in
  let order_hash := sha256 E message in
  let* signature := _eth_sign (defaultAccount E) order_hash in
  let signed_hash := str_slice 2 (String.length signature) signature in
  let* r := lift (bytes_fromhex (str_slice 0 64 signed_hash)) in
  let* s := lift (bytes_fromhex (str_slice 64 128 signed_hash)) in
  let* v := lift (result_bind (bytes_fromhex (str_slice 128 130 signed_hash)) ord) in
  let off_chain_order :=
    OffChainOrder.mk token_get amount_get token_give amount_give expires nonce
      (defaultAccount E) v r s in
  let* text := requests_post off_chain_order in
  ret (if str_in success_literal text then Some off_chain_order else None).

(** The external delivery of an [Order] log: every handler registered for
    that event runs, in the order of registration. *)
Definition deliver_order (log : LogOrder.t) : M unit :=
  fun w =>
    for_each (List.filter (fun eh => match fst eh with Order => true | Cancel => false end)
                (handlers w))
             (fun eh => run_handler (snd eh) log) w.
End EtherDelta.

(** ** Sample values

    A small chain used to run the client on concrete inputs. *)

Definition token_a : Address := mkAddress (repeat x01 20).
Definition token_b : Address := mkAddress (repeat x02 20).
Definition maker : Address := mkAddress (repeat x0a 20).
Definition exchange : Address := mkAddress (repeat xee 20).

(** A 65-byte signature as [eth_sign] returns it: [r], [s], then [v = 0x1b]. *)
Definition sample_signature : string :=
  ("0x" ++ String.concat "" (repeat "11"%string 32)
        ++ String.concat "" (repeat "22"%string 32) ++ "1b")%string.

Definition sample_log : LogOrder.t :=
  LogOrder.mk token_a (mkWad 100) token_b (mkWad 50) 10000000 9 maker.

(** The message of [sample_log]'s order placed off-chain with nonce 7. *)
Definition sample_message : bytes :=
  address exchange ++ address token_a ++ to_bytes_be 32 100 ++ address token_b ++
  to_bytes_be 32 50 ++ to_bytes_be 32 10000000 ++ to_bytes_be 32 7.

(** An accepting answer of the relay, [{"success": 1}] in the source's
    notation. *)
Definition accepted_text : string :=
  ("{" ++ success_literal ++ ": 1}")%string.

(** Nothing has been filled, every transaction is mined, the history holds
    one order, the signer signs and the relay accepts. *)
Definition sample_env : Env :=
  {| self_address := exchange;
     defaultAccount := maker;
     sha256 := fun m => firstn 32 m;
     randint := fun n => Z.of_nat n + 6;
     contract_call := fun _ => 0;
     contract_call_bool := fun _ => true;
     transact_receipt := fun _ => Some (mkReceipt 1);
     past_Order_logs := fun _ => [sample_log];
     past_Cancel_logs := fun _ => [];
     eth_sign := fun _ _ => Ok sample_signature;
     relay := fun _ _ => HttpResponse 200 accepted_text |}.

(** The same chain with another relay. *)
Definition with_relay (E : Env) (answer : HttpOutcome) : Env :=
  {| self_address := self_address E;
     defaultAccount := defaultAccount E;
     sha256 := sha256 E;
     randint := randint E;
     contract_call := contract_call E;
     contract_call_bool := contract_call_bool E;
     transact_receipt := transact_receipt E;
     past_Order_logs := past_Order_logs E;
     past_Cancel_logs := past_Cancel_logs E;
     eth_sign := eth_sign E;
     relay := fun _ _ => answer |}.

(** The same chain on which every transaction fails. *)
Definition with_failing_transactions (E : Env) : Env :=
  {| self_address := self_address E;
     defaultAccount := defaultAccount E;
     sha256 := sha256 E;
     randint := randint E;
     contract_call := contract_call E;
     contract_call_bool := contract_call_bool E;
     transact_receipt := fun _ => None;
     past_Order_logs := past_Order_logs E;
     past_Cancel_logs := past_Cancel_logs E;
     eth_sign := eth_sign E;
     relay := relay E |}.

(** A client that was just constructed: [_onchain_orders] is [None]. *)
Definition fresh_world : World := mkWorld None [] 0 [].

Definition sample_hasher : Hasher :=
  {| hash_int := fun n => n;
     hash_bytes := from_bytes_be;
     hash_Address := fun a => from_bytes_be (address a);
     hash_Wad := value;
     hash_tuple := fold_right (fun h acc => h + 31 * acc) 7 |}.

(** ** Vocabulary of the statements *)

(** The arguments the client sends for an on-chain order, and the filled
    amount the contract reports for it. *)
Definition onchain_args (o : OnChainOrder.t) : Args.t :=
  Args.mk (address (OnChainOrder.token_get o)) (value (OnChainOrder.amount_get o))
    (address (OnChainOrder.token_give o)) (value (OnChainOrder.amount_give o))
    (OnChainOrder.expires o) (OnChainOrder.nonce o) (address (OnChainOrder.user o))
    0 [] [].

Definition reported_filled (E : Env) (o : OnChainOrder.t) : Z :=
  contract_call E (call_amountFilled (onchain_args o)).

(** ** Hexadecimal text of a byte string

    [b.hex()], the text a signer returns after its [0x] prefix. *)
Definition hex_char (n : Z) : ascii :=
  if n <? 10 then ascii_of_nat (Z.to_nat (48 + n)) else ascii_of_nat (Z.to_nat (87 + n)).

Fixpoint hexlify (b : bytes) : string :=
  match b with
  | [] => EmptyString
  | x :: rest =>
      String (hex_char (Z_of_byte x / 16))
        (String (hex_char (Z_of_byte x mod 16)) (hexlify rest))
  end.

(** ** [EtherDelta.approve]

    The tokens and the approval function come from the caller; the function
    is run on each token in turn with the exchange's address and its name. *)
Section Approve.
Context {Token : Type}.

Definition approve (E : Env) (tokens : list Token)
    (approval_function : Token -> Address -> string -> M unit) : M unit :=
  for_each tokens (fun token => approval_function token (self_address E) "EtherDelta"%string).
End Approve.

(** ** Sequences of operations

    The methods a caller can invoke, and the delivery of an [Order] log by the
    chain client, as one type; a script runs them one after the other, each
    against the environment of its moment. *)
Inductive Op :=
| op_deposit (amount : PyVal)
| op_withdraw (amount : PyVal)
| op_balance_of (user : PyVal)
| op_deposit_token (token amount : PyVal)
| op_withdraw_token (token amount : PyVal)
| op_balance_of_token (token user : PyVal)
| op_active_onchain_orders
| op_place_order_onchain (token_get : Address) (amount_get : Wad) (token_give : Address)
                         (amount_give : Wad) (expires : Z)
| op_place_order_offchain (token_get : Address) (amount_get : Wad) (token_give : Address)
                          (amount_give : Wad) (expires : Z)
| op_amount_available (order : PyVal)
| op_amount_filled (order : PyVal)
| op_trade (order amount : PyVal)
| op_can_trade (order amount : PyVal)
| op_cancel_order (order : PyVal)
| op_on_order (callback : nat)
| op_on_cancel (callback : nat)
| op_past_order (number_of_past_blocks : Z)
| op_past_cancel (number_of_past_blocks : Z)
| op_deliver_order (log : LogOrder.t).

(** The world an operation leaves behind, whether it returned or raised. *)
Definition step (E : Env) (op : Op) (w : World) : World :=
  match op with
  | op_deposit amount => snd (deposit E amount w)
  | op_withdraw amount => snd (withdraw E amount w)
  | op_balance_of user => snd (balance_of E user w)
  | op_deposit_token token amount => snd (deposit_token E token amount w)
  | op_withdraw_token token amount => snd (withdraw_token E token amount w)
  | op_balance_of_token token user => snd (balance_of_token E token user w)
  | op_active_onchain_orders => snd (active_onchain_orders E w)
  | op_place_order_onchain tg ag tk ak e => snd (place_order_onchain E tg ag tk ak e w)
  | op_place_order_offchain tg ag tk ak e => snd (place_order_offchain E tg ag tk ak e w)
  | op_amount_available order => snd (amount_available E order w)
  | op_amount_filled order => snd (amount_filled E order w)
  | op_trade order amount => snd (trade E order amount w)
  | op_can_trade order amount => snd (can_trade E order amount w)
  | op_cancel_order order => snd (cancel_order E order w)
  | op_on_order callback => snd (on_order (CallerHandler callback) w)
  | op_on_cancel callback => snd (on_cancel (CallerHandler callback) w)
  | op_past_order n => snd (past_order E n w)
  | op_past_cancel n => snd (past_cancel E n w)
  | op_deliver_order log => snd (deliver_order log w)
  end.


(** The three operations that write [self._onchain_orders]. *)
Definition writes_tracker (op : Op) : bool :=
  match op with
  | op_active_onchain_orders | op_place_order_onchain _ _ _ _ _ | op_deliver_order _ => true
  | _ => false
  end.

Definition is_tracker_subscription (eh : EventName * Handler) : bool :=
  match eh with
  | (Order, TrackerHandler) => true
  | _ => false
  end.

Definition is_tracker_handler (eh : EventName * Handler) : bool :=
  match snd eh with
  | TrackerHandler => true
  | CallerHandler _ => false
  end.

(** How many times the tracker's own handler is subscribed to [Order] logs. *)
Definition tracker_subscriptions (w : World) : nat :=
  length (List.filter is_tracker_subscription (handlers w)).

(** The tracker's handler is subscribed exactly when the tracker holds a set,
    and then once. *)
Definition tracker_consistent (w : World) : Prop :=
  tracker_subscriptions w =
  match _onchain_orders w with Some _ => 1%nat | None => 0%nat end.

(** The relay POST among the requests. *)
Definition is_post (e : NetEvent) : bool :=
  match e with
  | NetPost _ _ => true
  | _ => false
  end.

(** The same chain with another signer. *)
Definition with_signer (E : Env) (answer : Result string) : Env :=
  {| self_address := self_address E;
     defaultAccount := defaultAccount E;
     sha256 := sha256 E;
     randint := randint E;
     contract_call := contract_call E;
     contract_call_bool := contract_call_bool E;
     transact_receipt := transact_receipt E;
     past_Order_logs := past_Order_logs E;
     past_Cancel_logs := past_Cancel_logs E;
     eth_sign := fun _ _ => answer;
     relay := relay E |}.

(** An approval function that fails on token 2 and accepts every other. *)
Definition sample_approval (token : Z) (spender : Address) (name : string) : M unit :=
  if token =? 2 then raise ValueError else ret tt.

(** * Properties *)

(** ** Equality and hashing of orders *)

Lemma Address__eq__true (a b : Address) : Address__eq__ a b = true <-> a = b.
Proof.
  unfold Address__eq__. rewrite bool_decide_eq_true.
  destruct a, b; simpl. split; congruence.
Qed.

Lemma Wad__eq__true (a b : Wad) : Wad__eq__ a b = true <-> a = b.
Proof.
  unfold Wad__eq__. rewrite Z.eqb_eq.
  destruct a, b; simpl. split; congruence.
Qed.

Lemma OnChainOrder__eq__true (x y : OnChainOrder.t) :
  OnChainOrder__eq__ x (PyOnChainOrder y) = true <-> x = y.
Proof.
  destruct x, y; simpl.
  rewrite !andb_true_iff, !Address__eq__true, !Wad__eq__true, !Z.eqb_eq.
  split.
  - intros [[[[[[-> ->] ->] ->] ->] ->] ->]. reflexivity.
  - intros [= -> -> -> -> -> -> ->]. tauto.
Qed.

Lemma OnChainOrder__eq__false (x y : OnChainOrder.t) :
  OnChainOrder__eq__ x (PyOnChainOrder y) = false <-> x <> y.
Proof.
  rewrite <- OnChainOrder__eq__true.
  destruct (OnChainOrder__eq__ x (PyOnChainOrder y)); split; congruence.
Qed.

(** C6: two [OnChainOrder]s built from the same seven field values are equal
    under [__eq__] and have the same hash; two that differ in any one of the
    seven fields are not equal. *)
Theorem onchain_order_equality_and_hash (H : Hasher)
    (tg tg' : Address) (ag ag' : Wad) (tk tk' : Address) (ak ak' : Wad)
    (e e' n n' : Z) (u u' : Address) :
  let x := OnChainOrder.mk tg ag tk ak e n u in
  let y := OnChainOrder.mk tg' ag' tk' ak' e' n' u' in
  (tg = tg' /\ ag = ag' /\ tk = tk' /\ ak = ak' /\ e = e' /\ n = n' /\ u = u' ->
   OnChainOrder__eq__ x (PyOnChainOrder y) = true /\
   OnChainOrder__hash__ x = OnChainOrder__hash__ y) /\
  (tg <> tg' \/ ag <> ag' \/ tk <> tk' \/ ak <> ak' \/ e <> e' \/ n <> n' \/ u <> u' ->
   OnChainOrder__eq__ x (PyOnChainOrder y) = false).
Proof.
  intros x y. split.
  - intros (-> & -> & -> & -> & -> & -> & ->). split; [| reflexivity].
    apply OnChainOrder__eq__true. reflexivity.
  - intros Hdiff. apply OnChainOrder__eq__false. subst x y.
    intros [= -> -> -> -> -> -> ->]. tauto.
Qed.

Lemma onchain_order_equality_and_hash_witness :
  (OnChainOrder__eq__ (LogOrder.to_order sample_log)
     (PyOnChainOrder (LogOrder.to_order sample_log)) = true /\
   @OnChainOrder__hash__ sample_hasher (LogOrder.to_order sample_log) =
   @OnChainOrder__hash__ sample_hasher (LogOrder.to_order sample_log)) /\
  OnChainOrder__eq__ (OnChainOrder.mk token_a (mkWad 100) token_b (mkWad 50) 10000000 9 maker)
    (PyOnChainOrder (OnChainOrder.mk token_a (mkWad 100) token_b (mkWad 50) 10000000 8 maker))
  = false.
Proof.
  split.
  - apply (onchain_order_equality_and_hash sample_hasher
             token_a token_a (mkWad 100) (mkWad 100) token_b token_b (mkWad 50) (mkWad 50)
             10000000 10000000 9 9 maker maker).
    repeat split; reflexivity.
  - apply (onchain_order_equality_and_hash sample_hasher
             token_a token_a (mkWad 100) (mkWad 100) token_b token_b (mkWad 50) (mkWad 50)
             10000000 10000000 9 8 maker maker).
    do 5 right. left. lia.
Defined.

(** C9: an [OnChainOrder] and an [OffChainOrder] never compare equal, in
    either direction and whatever their fields; and [__eq__] of either class
    answers [False] on a value that is no order at all. *)
Theorem order_variants_never_equal (x : OnChainOrder.t) (y : OffChainOrder.t) (other : PyVal) :
  OnChainOrder__eq__ x (PyOffChainOrder y) = false /\
  OffChainOrder__eq__ y (PyOnChainOrder x) = false /\
  (isinstance_Order other = false ->
   OnChainOrder__eq__ x other = false /\ OffChainOrder__eq__ y other = false).
Proof.
  repeat split; try reflexivity; destruct other; simpl in *; congruence.
Qed.

Lemma order_variants_never_equal_witness :
  let x := LogOrder.to_order sample_log in
  let y := OffChainOrder.mk token_a (mkWad 100) token_b (mkWad 50) 10000000 9 maker 27 [] [] in
  OnChainOrder__eq__ x (PyOffChainOrder y) = false /\
  OffChainOrder__eq__ y (PyOnChainOrder x) = false /\
  OnChainOrder__eq__ x (PyInt 9) = false /\ OffChainOrder__eq__ y (PyInt 9) = false.
Proof.
  intros x y.
  destruct (order_variants_never_equal x y (PyInt 9)) as (H1 & H2 & H3).
  split; [exact H1 | split; [exact H2 | apply H3; reflexivity]].
Defined.

(** ** The canonical message of an off-chain order *)

Lemma Z_of_byte_of_Z (z : Z) : Z_of_byte (byte_of_Z z) = z mod 256.
Proof.
  unfold Z_of_byte, byte_of_Z.
  assert (Hr : 0 <= z mod 256 < 256) by (apply Z.mod_pos_bound; lia).
  destruct (Byte.of_N (Z.to_N (z mod 256))) as [b |] eqn:Hb; simpl.
  - apply Byte.to_of_N in Hb. rewrite Hb. apply Z2N.id. lia.
  - apply Byte.of_N_None_iff in Hb. lia.
Qed.

Lemma length_to_bytes_be (n : nat) (v : Z) : length (to_bytes_be n v) = n.
Proof.
  revert v. induction n as [| n IH]; intros v; simpl; [reflexivity |].
  rewrite length_app, IH. simpl. lia.
Qed.

Lemma from_bytes_be_snoc (l : bytes) (b : byte) :
  from_bytes_be (l ++ [b]) = from_bytes_be l * 256 + Z_of_byte b.
Proof. unfold from_bytes_be. rewrite fold_left_app. reflexivity. Qed.

Lemma from_to_bytes_be (n : nat) (v : Z) :
  from_bytes_be (to_bytes_be n v) = v mod 256 ^ Z.of_nat n.
Proof.
  revert v. induction n as [| n IH]; intros v.
  - simpl. rewrite Z.mod_1_r. reflexivity.
  - cbn [to_bytes_be]. rewrite from_bytes_be_snoc, IH, Z_of_byte_of_Z.
    rewrite Nat2Z.inj_succ, Z.pow_succ_r by lia.
    rewrite Z.rem_mul_r by lia. lia.
Qed.

Lemma from_to_bytes_be_uint256 (v : Z) :
  0 <= v < 2 ^ 256 -> from_bytes_be (to_bytes_be 32 v) = v.
Proof.
  intros Hv. rewrite from_to_bytes_be.
  change (256 ^ Z.of_nat 32) with (2 ^ 256). apply Z.mod_small. exact Hv.
Qed.

Lemma encode_uint256_in_range (v : Z) :
  0 <= v < 2 ^ 256 -> encode_uint256 v = Ok (to_bytes_be 32 v).
Proof.
  intros Hv. unfold encode_uint256, abi_word_of_uint256.
  destruct (Z.leb_spec 0 v); [| lia].
  destruct (Z.ltb_spec v (2 ^ 256)); [reflexivity | lia].
Qed.

(** The address encoder's word is 32 bytes long, and the twenty bytes
    [encode_address] keeps of it are the address itself. *)
Lemma encode_address_low_20 (a : Address) :
  length (address a) = 20%nat ->
  exists word,
    abi_word_of_address (address a) = Ok word /\ length word = 32%nat /\
    encode_address a = Ok (skipn 12 word) /\ skipn 12 word = address a.
Proof.
  intros Ha. exists (repeat x00 12 ++ address a).
  unfold encode_address, abi_word_of_address. rewrite Ha. simpl.
  repeat split. rewrite Ha. reflexivity.
Qed.

Lemma encode_address_20 (a : Address) :
  length (address a) = 20%nat -> encode_address a = Ok (address a).
Proof.
  intros Ha. destruct (encode_address_low_20 a Ha) as (word & _ & _ & -> & ->).
  reflexivity.
Qed.

Lemma random_nonce_range (E : Env) (w : World) :
  1 <= 1 + randint E (draws w) mod (2 ^ 32 - 1) <= 2 ^ 32 - 1.
Proof.
  assert (0 <= randint E (draws w) mod (2 ^ 32 - 1) < 2 ^ 32 - 1)
    by (apply Z.mod_pos_bound; lia).
  lia.
Qed.

(** C1: when [place_order_offchain] is called with 20-byte addresses and
    amounts and expiry in the [uint256] range, the message it hashes is the
    concatenation of the contract address, [token_get] (20 bytes each, the
    low 20 bytes of the address's 32-byte ABI word),
    [amount_get] as 32 big-endian bytes, [token_give] (20 bytes),
    [amount_give], [expires] and the nonce as 32 big-endian bytes each, 188
    bytes in all; the digest handed to the signer is the SHA-256 function of
    the environment applied to that message; and the message is given by the
    contract address, the order fields and the nonce alone. *)
Theorem offchain_order_message (E : Env) (token_get : Address) (amount_get : Wad)
    (token_give : Address) (amount_give : Wad) (expires : Z) (w : World) :
  length (address (self_address E)) = 20%nat ->
  length (address token_get) = 20%nat ->
  length (address token_give) = 20%nat ->
  0 <= value amount_get < 2 ^ 256 ->
  0 <= value amount_give < 2 ^ 256 ->
  0 <= expires < 2 ^ 256 ->
  let nonce := 1 + randint E (draws w) mod (2 ^ 32 - 1) in
  let message :=
    address (self_address E) ++ address token_get ++
    to_bytes_be 32 (value amount_get) ++ address token_give ++
    to_bytes_be 32 (value amount_give) ++ to_bytes_be 32 expires ++
    to_bytes_be 32 nonce in
  order_message (self_address E) token_get amount_get token_give amount_give expires nonce
    = Ok message /\
  length message = 188%nat /\
  (forall a, In a [self_address E; token_get; token_give] ->
     exists word,
       abi_word_of_address (address a) = Ok word /\ length word = 32%nat /\
       encode_address a = Ok (skipn 12 word) /\ skipn 12 word = address a) /\
  from_bytes_be (to_bytes_be 32 (value amount_get)) = value amount_get /\
  from_bytes_be (to_bytes_be 32 (value amount_give)) = value amount_give /\
  from_bytes_be (to_bytes_be 32 expires) = expires /\
  from_bytes_be (to_bytes_be 32 nonce) = nonce /\
  (exists later,
     trace (snd (place_order_offchain E token_get amount_get token_give amount_give expires w))
     = trace w ++ NetSign (defaultAccount E) (sha256 E message) :: later) /\
  (forall (E' : Env) (w' : World),
     self_address E' = self_address E ->
     1 + randint E' (draws w') mod (2 ^ 32 - 1) = nonce ->
     exists later,
       trace (snd (place_order_offchain E' token_get amount_get token_give amount_give
                     expires w'))
       = trace w' ++ NetSign (defaultAccount E') (sha256 E' message) :: later).
Proof.
  intros Hc Hg Hk Hag Hak He nonce message.
  assert (Hn : 0 <= nonce < 2 ^ 256).
  { pose proof (random_nonce_range E w). subst nonce. lia. }
  assert (Hmsg : order_message (self_address E) token_get amount_get token_give
                   amount_give expires nonce = Ok message).
  { unfold order_message.
    rewrite !encode_address_20, !encode_uint256_in_range by assumption.
    reflexivity. }
  assert (Hrun : forall (E' : Env) (w' : World),
            self_address E' = self_address E ->
            1 + randint E' (draws w') mod (2 ^ 32 - 1) = nonce ->
            exists later,
              trace (snd (place_order_offchain E' token_get amount_get token_give
                            amount_give expires w'))
              = trace w' ++ NetSign (defaultAccount E') (sha256 E' message) :: later).
  { intros E' w' HE' Hn'.
    unfold place_order_offchain, bind, random_nonce, lift, _eth_sign, emit. simpl.
    rewrite Hn', HE', Hmsg. simpl.
    destruct (eth_sign E' (defaultAccount E') (sha256 E' message)) as [sg | ex]; simpl;
      [| exists []; reflexivity].
    set (sh := str_slice 2 (String.length sg) sg).
    destruct (bytes_fromhex (str_slice 0 64 sh)); simpl; [| exists []; reflexivity].
    destruct (bytes_fromhex (str_slice 64 128 sh)); simpl; [| exists []; reflexivity].
    destruct (result_bind (bytes_fromhex (str_slice 128 130 sh)) ord); simpl;
      [| exists []; reflexivity].
    unfold requests_post, bind, emit. simpl.
    match goal with |- context [relay E' ?a ?o] => destruct (relay E' a o) end; simpl.
    - eexists. rewrite <- app_assoc. reflexivity.
    - eexists. rewrite <- app_assoc. reflexivity. }
  split; [exact Hmsg |].
  split.
  { subst message. rewrite !length_app, !length_to_bytes_be, Hc, Hg, Hk. reflexivity. }
  split.
  { intros a [<- | [<- | [<- | []]]]; apply encode_address_low_20; assumption. }
  split; [apply from_to_bytes_be_uint256; assumption |].
  split; [apply from_to_bytes_be_uint256; assumption |].
  split; [apply from_to_bytes_be_uint256; assumption |].
  split; [apply from_to_bytes_be_uint256; assumption |].
  split; [apply Hrun; reflexivity | exact Hrun].
Qed.

Lemma offchain_order_message_witness :
  exists message,
    order_message exchange token_a (mkWad 100) token_b (mkWad 50) 10000000 7 = Ok message /\
    length message = 188%nat /\
    exists later,
      trace (snd (place_order_offchain sample_env token_a (mkWad 100) token_b (mkWad 50)
                    10000000 fresh_world))
      = NetSign maker (sha256 sample_env message) :: later.
Proof.
  destruct (offchain_order_message sample_env token_a (mkWad 100) token_b (mkWad 50)
              10000000 fresh_world)
    as (Hm & Hl & _ & _ & _ & _ & _ & Hs & _);
    try reflexivity; try (split; [discriminate | reflexivity]).
  eexists. split; [exact Hm |]. split; [exact Hl | exact Hs].
Defined.

(** ** Signature fields passed to the contract *)

(** C7: each of [amount_available], [amount_filled], [trade], [can_trade] and
    [cancel_order] accepts both order variants and makes exactly one request;
    for an [OnChainOrder] that request carries [0] for [v] and empty bytes for
    [r] and [s], for an [OffChainOrder] it carries the order's own [v], [r]
    and [s]. *)
Theorem signature_fields_by_variant (E : Env) (w : World)
    (x : OnChainOrder.t) (y : OffChainOrder.t) (amount : Wad) :
  let ax :=
    Args.mk (address (OnChainOrder.token_get x)) (value (OnChainOrder.amount_get x))
      (address (OnChainOrder.token_give x)) (value (OnChainOrder.amount_give x))
      (OnChainOrder.expires x) (OnChainOrder.nonce x) (address (OnChainOrder.user x))
      0 [] [] in
  let ay :=
    Args.mk (address (OffChainOrder.token_get y)) (value (OffChainOrder.amount_get y))
      (address (OffChainOrder.token_give y)) (value (OffChainOrder.amount_give y))
      (OffChainOrder.expires y) (OffChainOrder.nonce y) (address (OffChainOrder.user y))
      (OffChainOrder.v y) (OffChainOrder.r y) (OffChainOrder.s y) in
  let sent {A} (run : M A) := trace (snd (run w)) in
  (sent (amount_available E (PyOnChainOrder x)) = trace w ++ [NetCall (call_availableVolume ax)] /\
   sent (amount_filled E (PyOnChainOrder x)) = trace w ++ [NetCall (call_amountFilled ax)] /\
   sent (trade E (PyOnChainOrder x) (PyWad amount))
     = trace w ++ [NetTransact (tx_trade ax (value amount))] /\
   sent (can_trade E (PyOnChainOrder x) (PyWad amount))
     = trace w ++ [NetCall (call_testTrade ax (value amount) (defaultAccount E))] /\
   sent (cancel_order E (PyOnChainOrder x))
     = trace w ++ [NetTransact
                     (tx_cancelOrder (Args.tokenGet ax) (Args.amountGet ax) (Args.tokenGive ax)
                        (Args.amountGive ax) (Args.expires ax) (Args.nonce ax) 0 [] [])]) /\
  (sent (amount_available E (PyOffChainOrder y)) = trace w ++ [NetCall (call_availableVolume ay)] /\
   sent (amount_filled E (PyOffChainOrder y)) = trace w ++ [NetCall (call_amountFilled ay)] /\
   sent (trade E (PyOffChainOrder y) (PyWad amount))
     = trace w ++ [NetTransact (tx_trade ay (value amount))] /\
   sent (can_trade E (PyOffChainOrder y) (PyWad amount))
     = trace w ++ [NetCall (call_testTrade ay (value amount) (defaultAccount E))] /\
   sent (cancel_order E (PyOffChainOrder y))
     = trace w ++ [NetTransact
                     (tx_cancelOrder (Args.tokenGet ay) (Args.amountGet ay) (Args.tokenGive ay)
                        (Args.amountGive ay) (Args.expires ay) (Args.nonce ay)
                        (OffChainOrder.v y) (OffChainOrder.r y) (OffChainOrder.s y))]).
Proof. repeat split; reflexivity. Qed.

(** ** The tracked set under [place_order_onchain] *)

Lemma set_onchain_orders_same (w : World) :
  set_onchain_orders (_onchain_orders w) w = w.
Proof. destruct w; reflexivity. Qed.

(** What [place_order_onchain] does, by cases on the receipt and on the
    tracker. *)
Lemma place_order_onchain_run (E : Env) (token_get : Address) (amount_get : Wad)
    (token_give : Address) (amount_give : Wad) (expires : Z) (w : World) :
  let nonce := 1 + randint E (draws w) mod (2 ^ 32 - 1) in
  let tx := tx_order (address token_get) (value amount_get) (address token_give)
              (value amount_give) expires nonce in
  let order := OnChainOrder.mk token_get amount_get token_give amount_give expires nonce
                 (defaultAccount E) in
  let w1 := mkWorld (_onchain_orders w) (handlers w) (S (draws w))
              (trace w ++ [NetTransact tx]) in
  place_order_onchain E token_get amount_get token_give amount_give expires w =
  (Ok (transact_receipt E tx),
   match transact_receipt E tx, _onchain_orders w with
   | Some _, Some s => set_onchain_orders (Some ({[order]} ∪ s)) w1
   | _, _ => w1
   end).
Proof.
  intros nonce tx order w1.
  unfold place_order_onchain, bind, random_nonce, _transact, emit, get_onchain_orders,
    onchain_orders_add, ret, bind. simpl. fold nonce. fold tx.
  destruct (transact_receipt E tx) as [rc |]; [| reflexivity].
  destruct (_onchain_orders w) as [s |]; reflexivity.
Qed.

(** C10: when [place_order_onchain] returns no receipt, or when the tracker
    is not initialised, the tracked set is what it was before the call; the
    set changes only if a receipt was returned and the tracker was
    initialised. *)
Theorem place_order_onchain_keeps_set_on_failure (E : Env) (token_get : Address)
    (amount_get : Wad) (token_give : Address) (amount_give : Wad) (expires : Z) (w : World) :
  let run := place_order_onchain E token_get amount_get token_give amount_give expires w in
  (fst run = Ok None \/ _onchain_orders w = None ->
   _onchain_orders (snd run) = _onchain_orders w) /\
  (_onchain_orders (snd run) <> _onchain_orders w ->
   exists receipt s, fst run = Ok (Some receipt) /\ _onchain_orders w = Some s).
Proof.
  intros run. subst run. rewrite place_order_onchain_run. simpl.
  destruct (transact_receipt E _) as [rc |]; destruct (_onchain_orders w) as [s |] eqn:Hs;
    simpl; split; try (intros; congruence).
  - intros [? | ?]; congruence.
  - intros _. exists rc, s. split; reflexivity.
Qed.

Lemma place_order_onchain_keeps_set_on_failure_witness :
  _onchain_orders
    (snd (place_order_onchain (with_failing_transactions sample_env) token_a (mkWad 100)
            token_b (mkWad 50) 10000000
            (mkWorld (Some {[LogOrder.to_order sample_log]}) [] 0 [])))
  = Some {[LogOrder.to_order sample_log]} /\
  _onchain_orders
    (snd (place_order_onchain sample_env token_a (mkWad 100) token_b (mkWad 50) 10000000
            fresh_world))
  = None.
Proof.
  split.
  - apply (place_order_onchain_keeps_set_on_failure (with_failing_transactions sample_env)
             token_a (mkWad 100) token_b (mkWad 50) 10000000
             (mkWorld (Some {[LogOrder.to_order sample_log]}) [] 0 [])).
    left. reflexivity.
  - apply (place_order_onchain_keeps_set_on_failure sample_env
             token_a (mkWad 100) token_b (mkWad 50) 10000000 fresh_world).
    right. reflexivity.
Defined.

(** ** Pruning of the tracked set *)

Lemma prune_order_run (E : Env) (o : OnChainOrder.t) (w : World) (s : gset OnChainOrder.t) :
  _onchain_orders w = Some s ->
  o ∈ s ->
  prune_order E o w =
  (Ok tt,
   mkWorld (Some (if decide (reported_filled E o = value (OnChainOrder.amount_get o))
                  then s ∖ {[o]} else s))
     (handlers w) (draws w) (trace w ++ [NetCall (call_amountFilled (onchain_args o))])).
Proof.
  intros Hs Ho.
  unfold prune_order, amount_filled, bind, lift, call, emit, ret, bind. simpl.
  fold (onchain_args o). fold (reported_filled E o).
  unfold Wad__eq__. simpl.
  destruct (Z.eqb_spec (reported_filled E o) (value (OnChainOrder.amount_get o))) as [Heq | Hne].
  - unfold onchain_orders_remove. simpl. rewrite Hs.
    destruct (decide (o ∈ s)); [| contradiction].
    destruct (decide _); [reflexivity | contradiction].
  - unfold ret. rewrite Hs. destruct (decide _); [contradiction | reflexivity].
Qed.

(** The pruning loop over a snapshot without repetitions, all of whose
    members are tracked: it never raises, asks the contract once per order,
    and removes exactly the orders reported as filled. *)
Lemma prune_loop_run (E : Env) (l : list OnChainOrder.t) :
  forall (w : World) (s : gset OnChainOrder.t),
    NoDup l ->
    (forall o, o ∈ l -> o ∈ s) ->
    _onchain_orders w = Some s ->
    exists s',
      for_each l (prune_order E) w =
      (Ok tt,
       mkWorld (Some s') (handlers w) (draws w)
         (trace w ++ map (fun o => NetCall (call_amountFilled (onchain_args o))) l)) /\
      forall o, o ∈ s' <->
                o ∈ s /\ ~ (o ∈ l /\ reported_filled E o = value (OnChainOrder.amount_get o)).
Proof.
  induction l as [| x rest IH]; intros w s Hnd Hin Hs.
  - exists s. split.
    + simpl. unfold ret. rewrite app_nil_r, <- Hs. destruct w; reflexivity.
    + intros o. split; [intros Ho; split; [exact Ho | intros [Hl _]; inversion Hl] | tauto].
  - apply NoDup_cons in Hnd as [Hx Hnd].
    assert (Hxs : x ∈ s) by (apply Hin; left).
    cbn [for_each]. unfold bind at 1. rewrite (prune_order_run E x w s Hs Hxs).
    set (s1 := if decide (reported_filled E x = value (OnChainOrder.amount_get x))
               then s ∖ {[x]} else s).
    set (w1 := mkWorld (Some s1) _ _ _).
    destruct (IH w1 s1 Hnd) as (s' & Hrun & Hmem).
    { intros o Ho. assert (o <> x) by (intros ->; contradiction).
      subst s1. destruct (decide _); [| apply Hin; right; exact Ho].
      apply elem_of_difference. split; [apply Hin; right; exact Ho |].
      rewrite elem_of_singleton. assumption. }
    { reflexivity. }
    exists s'. split.
    + rewrite Hrun. subst w1. simpl. rewrite <- app_assoc. reflexivity.
    + intros o. rewrite Hmem. subst s1. rewrite elem_of_cons.
      destruct (decide (reported_filled E x = value (OnChainOrder.amount_get x))) as [Hf | Hf].
      * rewrite elem_of_difference, elem_of_singleton. split.
        -- intros [[Ho Hox] Hr]. split; [exact Ho |]. intros [[-> | Hl] Hfo]; tauto.
        -- intros [Ho Hr]. split; [split; [exact Ho |] |].
           ++ intros ->. apply Hr. split; [left; reflexivity | exact Hf].
           ++ intros [Hl Hfo]. apply Hr. split; [right; exact Hl | exact Hfo].
      * split.
        -- intros [Ho Hr]. split; [exact Ho |]. intros [[-> | Hl] Hfo]; tauto.
        -- intros [Ho Hr]. split; [exact Ho |]. intros [Hl Hfo]. apply Hr.
           split; [right; exact Hl | exact Hfo].
Qed.

(** The second half of [active_onchain_orders], from the snapshot on, when
    the tracker holds a set: it returns the members of the new tracked set,
    which are the tracked orders not reported as filled. *)
Lemma prune_and_list_run (E : Env) (w : World) (s : gset OnChainOrder.t) :
  _onchain_orders w = Some s ->
  exists s',
    (let* snapshot := onchain_orders_list in
     for_each snapshot (prune_order E) ;;
     onchain_orders_list) w =
    (Ok (elements s'),
     mkWorld (Some s') (handlers w) (draws w)
       (trace w ++ map (fun o => NetCall (call_amountFilled (onchain_args o))) (elements s))) /\
    forall o, o ∈ s' <->
              o ∈ s /\ reported_filled E o <> value (OnChainOrder.amount_get o).
Proof.
  intros Hs.
  destruct (prune_loop_run E (elements s) w s) as (s' & Hrun & Hmem).
  { apply NoDup_elements. }
  { intros o. apply elem_of_elements. }
  { exact Hs. }
  exists s'. split.
  - unfold bind at 1. unfold onchain_orders_list at 1. rewrite Hs.
    unfold bind. rewrite Hrun. reflexivity.
  - intros o. rewrite Hmem, elem_of_elements. tauto.
Qed.

Lemma active_onchain_orders_initialised (E : Env) (w : World) (s : gset OnChainOrder.t) :
  _onchain_orders w = Some s ->
  exists s',
    active_onchain_orders E w =
    (Ok (elements s'),
     mkWorld (Some s') (handlers w) (draws w)
       (trace w ++ map (fun o => NetCall (call_amountFilled (onchain_args o))) (elements s))) /\
    forall o, o ∈ s' <->
              o ∈ s /\ reported_filled E o <> value (OnChainOrder.amount_get o).
Proof.
  intros Hs.
  destruct (prune_and_list_run E w s Hs) as (s' & Hrun & Hmem).
  exists s'. split; [| exact Hmem].
  rewrite <- Hrun.
  unfold active_onchain_orders. unfold bind at 1. unfold get_onchain_orders.
  rewrite Hs. reflexivity.
Qed.

(** C2: on a query of an initialised tracker, a tracked order whose reported
    filled amount equals its [amount_get] leaves the tracked set and is not
    returned; one whose reported filled amount is strictly less stays in the
    set and is returned. *)
Theorem active_onchain_orders_prunes_filled (E : Env) (w : World) (s : gset OnChainOrder.t) :
  _onchain_orders w = Some s ->
  exists (returned : list OnChainOrder.t) (s' : gset OnChainOrder.t),
    fst (active_onchain_orders E w) = Ok returned /\
    _onchain_orders (snd (active_onchain_orders E w)) = Some s' /\
    forall o, o ∈ s ->
      (reported_filled E o = value (OnChainOrder.amount_get o) ->
       (o ∉ s') /\ (o ∉ returned)) /\
      (reported_filled E o < value (OnChainOrder.amount_get o) ->
       o ∈ s' /\ o ∈ returned).
Proof.
  intros Hs.
  destruct (active_onchain_orders_initialised E w s Hs) as (s' & Hrun & Hmem).
  exists (elements s'), s'. rewrite Hrun. simpl.
  split; [reflexivity |]. split; [reflexivity |].
  intros o Ho. rewrite elem_of_elements, Hmem. split.
  - intros Hf. split; tauto.
  - intros Hf. split; (split; [exact Ho | lia]).
Qed.

Lemma active_onchain_orders_prunes_filled_witness :
  exists (returned : list OnChainOrder.t) (s' : gset OnChainOrder.t),
    fst (active_onchain_orders sample_env
           (mkWorld (Some {[LogOrder.to_order sample_log]}) [] 0 [])) = Ok returned /\
    _onchain_orders
      (snd (active_onchain_orders sample_env
              (mkWorld (Some {[LogOrder.to_order sample_log]}) [] 0 []))) = Some s' /\
    forall o, o ∈ ({[LogOrder.to_order sample_log]} : gset OnChainOrder.t) ->
      (reported_filled sample_env o = value (OnChainOrder.amount_get o) ->
       (o ∉ s') /\ (o ∉ returned)) /\
      (reported_filled sample_env o < value (OnChainOrder.amount_get o) ->
       o ∈ s' /\ o ∈ returned).
Proof.
  apply (active_onchain_orders_prunes_filled sample_env
           (mkWorld (Some {[LogOrder.to_order sample_log]}) [] 0 [])
           {[LogOrder.to_order sample_log]}).
  reflexivity.
Defined.

(** ** Local-write visibility *)

Lemma onchain_orders_add_known (o : OnChainOrder.t) (w : World) (s : gset OnChainOrder.t) :
  _onchain_orders w = Some s -> o ∈ s -> onchain_orders_add o w = (Ok tt, w).
Proof.
  intros Hs Ho. unfold onchain_orders_add. rewrite Hs.
  replace ({[o]} ∪ s) with s by (symmetry; apply subseteq_union_1_L; set_solver).
  rewrite <- Hs, set_onchain_orders_same. reflexivity.
Qed.

(** Delivering the log of an order that is tracked already changes nothing,
    whatever handlers are registered. *)
Lemma deliver_order_known (log : LogOrder.t) (w : World) (s : gset OnChainOrder.t) :
  _onchain_orders w = Some s ->
  LogOrder.to_order log ∈ s ->
  deliver_order log w = (Ok tt, w).
Proof.
  intros Hs Ho. unfold deliver_order.
  induction (List.filter _ (handlers w)) as [| [ev h] hs IH]; [reflexivity |].
  cbn [for_each]. unfold bind.
  assert (Hh : run_handler h log w = (Ok tt, w)).
  { destruct h; simpl; [apply (onchain_orders_add_known _ w s Hs Ho) | reflexivity]. }
  simpl. rewrite Hh. exact IH.
Qed.

(** C4, as the code has it: when [place_order_onchain] returns a receipt and
    the tracker is initialised, the new order joins the tracked set at once;
    a query made before any event delivery returns it, in a list without
    repetitions, provided the contract does not report it as filled up to its
    [amount_get]; and the later delivery of the matching log changes neither
    the set nor anything else. *)
Theorem place_order_onchain_visible (E E2 : Env) (token_get : Address) (amount_get : Wad)
    (token_give : Address) (amount_give : Wad) (expires : Z) (w : World)
    (s : gset OnChainOrder.t) (receipt : Receipt) :
  _onchain_orders w = Some s ->
  fst (place_order_onchain E token_get amount_get token_give amount_give expires w)
    = Ok (Some receipt) ->
  let order := OnChainOrder.mk token_get amount_get token_give amount_give expires
                 (1 + randint E (draws w) mod (2 ^ 32 - 1)) (defaultAccount E) in
  let w1 := snd (place_order_onchain E token_get amount_get token_give amount_give expires w) in
  _onchain_orders w1 = Some ({[order]} ∪ s) /\
  (reported_filled E2 order <> value amount_get ->
   exists returned,
     fst (active_onchain_orders E2 w1) = Ok returned /\ order ∈ returned /\ NoDup returned) /\
  (forall log, LogOrder.to_order log = order -> deliver_order log w1 = (Ok tt, w1)).
Proof.
  intros Hs Hrc order w1. subst w1.
  rewrite place_order_onchain_run in *. simpl in Hrc. simpl.
  injection Hrc as Hrc. rewrite Hrc, Hs.
  fold order. set (w1 := set_onchain_orders _ _).
  assert (H1 : _onchain_orders w1 = Some ({[order]} ∪ s)) by reflexivity.
  split; [exact H1 |]. split.
  - intros Hf.
    destruct (active_onchain_orders_initialised E2 w1 _ H1) as (s' & Hrun & Hmem).
    exists (elements s'). rewrite Hrun. simpl.
    split; [reflexivity |]. split; [| apply NoDup_elements].
    apply elem_of_elements, Hmem. split; [| exact Hf].
    apply elem_of_union_l, elem_of_singleton. reflexivity.
  - intros log Hlog. apply (deliver_order_known log w1 _ H1).
    rewrite Hlog. set_solver.
Qed.

Lemma place_order_onchain_visible_witness :
  let placed := place_order_onchain sample_env token_a (mkWad 100) token_b (mkWad 50) 10000000
                  (mkWorld (Some ∅) [(Order, TrackerHandler)] 0 []) in
  let order := OnChainOrder.mk token_a (mkWad 100) token_b (mkWad 50) 10000000 7 maker in
  _onchain_orders (snd placed) = Some ({[order]} ∪ ∅) /\
  (exists returned,
     fst (active_onchain_orders sample_env (snd placed)) = Ok returned /\
     order ∈ returned /\ NoDup returned) /\
  deliver_order
    (LogOrder.mk token_a (mkWad 100) token_b (mkWad 50) 10000000 7 maker) (snd placed)
  = (Ok tt, snd placed).
Proof.
  intros placed order.
  destruct (place_order_onchain_visible sample_env sample_env token_a (mkWad 100) token_b
              (mkWad 50) 10000000 (mkWorld (Some ∅) [(Order, TrackerHandler)] 0 []) ∅
              (mkReceipt 1) eq_refl eq_refl) as (H1 & H2 & H3).
  split; [exact H1 |]. split.
  - apply H2. discriminate.
  - apply H3. reflexivity.
Defined.

(** C4 as stated fails on an order that asks for nothing.  A client is
    queried once, which initialises its tracker with the one historical
    order; it then places an order with [amount_get = 0] and receives a
    receipt.  The contract reports 0 filled for it, which equals its
    [amount_get], so the query made right after the placement, before any
    event delivery, prunes the new order and returns the historical one
    alone. *)
Lemma place_order_onchain_visible_counterexample :
  let w := snd (active_onchain_orders sample_env fresh_world) in
  let placed := place_order_onchain sample_env token_a (mkWad 0) token_b (mkWad 50) 10000000 w in
  let order := OnChainOrder.mk token_a (mkWad 0) token_b (mkWad 50) 10000000 7 maker in
  option_map elements (_onchain_orders w) = Some [LogOrder.to_order sample_log] /\
  fst placed = Ok (Some (mkReceipt 1)) /\
  option_map (fun s => bool_decide (order ∈ s)) (_onchain_orders (snd placed)) = Some true /\
  fst (active_onchain_orders sample_env (snd placed)) = Ok [LogOrder.to_order sample_log] /\
  ~ (exists returned,
       fst (active_onchain_orders sample_env (snd placed)) = Ok returned /\ order ∈ returned).
Proof.
  intros w placed order.
  assert (Hq : fst (active_onchain_orders sample_env (snd placed))
               = Ok [LogOrder.to_order sample_log])
    by (vm_compute; reflexivity).
  split; [vm_compute; reflexivity |].
  split; [vm_compute; reflexivity |].
  split; [vm_compute; reflexivity |].
  split; [exact Hq |].
  intros (returned & Hr & Hin). rewrite Hq in Hr. injection Hr as <-.
  apply list_elem_of_singleton in Hin. discriminate Hin.
Qed.

(** ** Initialisation of the tracker *)

(** The backfill loop: every historical order joins the set. *)
Lemma backfill_run (past : list LogOrder.t) :
  forall (w : World) (s : gset OnChainOrder.t),
    _onchain_orders w = Some s ->
    for_each past (fun old_order => onchain_orders_add (LogOrder.to_order old_order)) w =
    (Ok tt, set_onchain_orders (Some (list_to_set (map LogOrder.to_order past) ∪ s)) w).
Proof.
  induction past as [| log past IH]; intros w s Hs.
  - simpl. unfold ret. rewrite (left_id_L ∅ (∪)), <- Hs, set_onchain_orders_same. reflexivity.
  - cbn [for_each]. unfold bind at 1. unfold onchain_orders_add at 1. rewrite Hs.
    rewrite (IH _ ({[LogOrder.to_order log]} ∪ s)) by reflexivity.
    simpl. unfold set_onchain_orders. simpl.
    rewrite (comm_L (∪) {[LogOrder.to_order log]} (list_to_set _)).
    rewrite <- (assoc_L (∪)). reflexivity.
Qed.

(** The first half of [active_onchain_orders] on a client that was never
    queried: subscription first, then the historical query over 1000000
    blocks, then the insertions. *)
Lemma first_query_run (E : Env) (w : World) :
  _onchain_orders w = None ->
  exists s',
    active_onchain_orders E w =
    (Ok (elements s'),
     mkWorld (Some s') (handlers w ++ [(Order, TrackerHandler)]) (draws w)
       (trace w ++ NetSubscribe Order :: NetPastEvents Order 1000000 ::
          map (fun o => NetCall (call_amountFilled (onchain_args o)))
            (elements (list_to_set (map LogOrder.to_order (past_Order_logs E 1000000))
                       : gset OnChainOrder.t)))) /\
    forall o, o ∈ s' <->
              (exists log, log ∈ past_Order_logs E 1000000 /\ LogOrder.to_order log = o) /\
              reported_filled E o <> value (OnChainOrder.amount_get o).
Proof.
  intros Hnone.
  set (past := past_Order_logs E 1000000).
  set (s0 := list_to_set (map LogOrder.to_order past) : gset OnChainOrder.t).
  set (w0 := mkWorld (Some s0) (handlers w ++ [(Order, TrackerHandler)]) (draws w)
               (trace w ++ [NetSubscribe Order; NetPastEvents Order 1000000])).
  destruct (prune_and_list_run E w0 s0 eq_refl) as (s' & Hrun & Hmem).
  exists s'. split.
  - unfold active_onchain_orders. unfold bind at 1. unfold get_onchain_orders.
    rewrite Hnone. unfold bind at 1.
    assert (Hinit :
      (new_onchain_orders ;;
       on_order TrackerHandler ;;
       let* past := past_order E 1000000 in
       for_each past (fun old_order => onchain_orders_add (LogOrder.to_order old_order))) w
      = (Ok tt, w0)).
    { unfold bind at 1. unfold new_onchain_orders.
      unfold bind at 1. unfold on_order, _on_event, bind, emit. simpl.
      unfold past_order, _past_Order_events, bind, emit, ret. simpl.
      fold past. erewrite backfill_run by reflexivity.
      unfold set_onchain_orders, w0. simpl.
      rewrite (right_id_L ∅ (∪)), <- app_assoc. reflexivity. }
    rewrite Hinit, Hrun. unfold w0. simpl. rewrite <- app_assoc. reflexivity.
  - intros o. rewrite Hmem. unfold s0. rewrite elem_of_list_to_set, list_elem_of_fmap.
    split; intros [(log & H1 & H2) Hf]; (split; [exists log; split; auto | exact Hf]).
Qed.

Lemma deliver_order_keeps_initialised (log : LogOrder.t) (w : World) :
  is_Some (_onchain_orders w) -> is_Some (_onchain_orders (snd (deliver_order log w))).
Proof.
  unfold deliver_order.
  generalize (List.filter
                (fun eh : EventName * Handler =>
                   match fst eh with Order => true | Cancel => false end) (handlers w)).
  intros hs. revert w. induction hs as [| [ev h] hs IH]; intros w' Hw'.
  - exact Hw'.
  - cbn [for_each]. unfold bind. simpl.
    destruct h; simpl.
    + unfold onchain_orders_add. destruct Hw' as [s Hs]. rewrite Hs. simpl.
      apply IH. simpl. eauto.
    + apply IH. exact Hw'.
Qed.

(** C5, as the code has it: the first query registers the subscription to
    [Order] logs before it fetches the historical ones; the lookback window
    of that fetch is the constant 1000000 blocks; every historical order is
    inserted (it is tracked afterwards unless the contract reports it as
    filled), and nothing else is tracked; and once the tracker holds a set, a
    query, an on-chain placement or an event delivery leaves it holding one. *)
Theorem first_query_subscribes_then_backfills (E : Env) (w : World) :
  _onchain_orders w = None ->
  let run := active_onchain_orders E w in
  (exists (s' : gset OnChainOrder.t) (calls : list NetEvent),
     fst run = Ok (elements s') /\
     _onchain_orders (snd run) = Some s' /\
     handlers (snd run) = handlers w ++ [(Order, TrackerHandler)] /\
     trace (snd run)
       = trace w ++ NetSubscribe Order :: NetPastEvents Order 1000000 :: calls /\
     (forall c, c ∈ calls -> exists a, c = NetCall (call_amountFilled a)) /\
     (forall log, log ∈ past_Order_logs E 1000000 ->
        LogOrder.to_order log ∈ s' \/
        reported_filled E (LogOrder.to_order log)
          = value (OnChainOrder.amount_get (LogOrder.to_order log))) /\
     (forall o, o ∈ s' ->
        exists log, log ∈ past_Order_logs E 1000000 /\ LogOrder.to_order log = o)) /\
  (forall (E2 : Env) (w2 : World),
     is_Some (_onchain_orders w2) ->
     is_Some (_onchain_orders (snd (active_onchain_orders E2 w2))) /\
     (forall tg ag tk ak e,
        is_Some (_onchain_orders (snd (place_order_onchain E2 tg ag tk ak e w2)))) /\
     (forall log, is_Some (_onchain_orders (snd (deliver_order log w2))))).
Proof.
  intros Hnone run. split.
  - destruct (first_query_run E w Hnone) as (s' & Hrun & Hmem).
    subst run. rewrite Hrun. simpl.
    eexists s', _. repeat split.
    + intros c Hc. apply list_elem_of_fmap in Hc as (o & -> & _). eauto.
    + intros log Hlog.
      destruct (decide (reported_filled E (LogOrder.to_order log)
                        = value (OnChainOrder.amount_get (LogOrder.to_order log))))
        as [Hf | Hf]; [right; exact Hf | left].
      apply Hmem. split; [exists log; split; auto | exact Hf].
    + intros o Ho. apply Hmem in Ho as [Hlog _]. exact Hlog.
  - intros E2 w2 [s2 Hs2]. repeat split.
    + destruct (active_onchain_orders_initialised E2 w2 s2 Hs2) as (s' & Hrun & _).
      rewrite Hrun. simpl. eauto.
    + intros tg ag tk ak e. rewrite place_order_onchain_run. simpl. rewrite Hs2.
      destruct (transact_receipt E2 _); simpl; eauto.
    + intros log. apply deliver_order_keeps_initialised. eauto.
Qed.

Lemma first_query_subscribes_then_backfills_witness :
  exists (s' : gset OnChainOrder.t) (calls : list NetEvent),
    fst (active_onchain_orders sample_env fresh_world) = Ok (elements s') /\
    trace (snd (active_onchain_orders sample_env fresh_world))
      = NetSubscribe Order :: NetPastEvents Order 1000000 :: calls.
Proof.
  destruct (first_query_subscribes_then_backfills sample_env fresh_world eq_refl)
    as [(s' & calls & H1 & _ & _ & H4 & _) _].
  exists s', calls. split; [exact H1 | exact H4].
Defined.

(** The only historical query of the first call asks for 1000000 blocks. *)
Lemma first_query_window (E : Env) (w : World) (window : Z) :
  _onchain_orders w = None ->
  In (NetPastEvents Order window) (trace (snd (active_onchain_orders E w))) ->
  In (NetPastEvents Order window) (trace w) \/ window = 1000000.
Proof.
  intros Hnone Hin.
  destruct (first_query_run E w Hnone) as (s' & Hrun & _).
  rewrite Hrun in Hin. cbn [snd trace] in Hin.
  apply in_app_or in Hin as [Hin | [Hin | [Hin | Hin]]].
  - left. exact Hin.
  - discriminate Hin.
  - right. congruence.
  - apply in_map_iff in Hin as (o & Ho & _). discriminate Ho.
Qed.

(** C5 as stated fails on the window: [active_onchain_orders] takes no
    argument, so a caller who wants the history of the last 2000 blocks
    cannot ask for it; the first query asks for 1000000 blocks and for no
    other window. *)
Lemma first_query_window_counterexample :
  ~ In (NetPastEvents Order 2000)
       (trace (snd (active_onchain_orders sample_env fresh_world))).
Proof.
  intros Hin.
  apply (first_query_window sample_env fresh_world 2000 eq_refl) in Hin as [Hin | Hin].
  - exact Hin.
  - discriminate Hin.
Qed.

(** ** The relay's answer *)

(** C3, as the code has it: once the order is signed, the relay's answer
    decides the result.  A response whose text lacks the literal
    ["success"] (in double quotes) yields no order; a response whose text
    contains it yields the completed order; the status code plays no part;
    and an exception of the POST, such as a timeout, is raised to the
    caller. *)
Theorem place_order_offchain_relay_outcome (E : Env) (token_get : Address)
    (amount_get : Wad) (token_give : Address) (amount_give : Wad) (expires : Z) (w : World)
    (message : bytes) (signature : string) (r s : bytes) (v : Z) :
  let nonce := 1 + randint E (draws w) mod (2 ^ 32 - 1) in
  let signed_hash := str_slice 2 (String.length signature) signature in
  let order := OffChainOrder.mk token_get amount_get token_give amount_give expires nonce
                 (defaultAccount E) v r s in
  let run := place_order_offchain E token_get amount_get token_give amount_give expires w in
  order_message (self_address E) token_get amount_get token_give amount_give expires nonce
    = Ok message ->
  eth_sign E (defaultAccount E) (sha256 E message) = Ok signature ->
  bytes_fromhex (str_slice 0 64 signed_hash) = Ok r ->
  bytes_fromhex (str_slice 64 128 signed_hash) = Ok s ->
  result_bind (bytes_fromhex (str_slice 128 130 signed_hash)) ord = Ok v ->
  match relay E (self_address E) order with
  | HttpRaises e => fst run = Raise e
  | HttpResponse status_code text =>
      fst run = Ok (if str_in success_literal text then Some order else None)
  end /\
  (forall o, fst run = Ok (Some o) ->
     o = order /\
     exists status_code text,
       relay E (self_address E) order = HttpResponse status_code text /\
       str_in success_literal text = true).
Proof.
  intros nonce signed_hash order run Hm Hsg Hr Hs Hv.
  assert (Hrun : fst run =
                 match relay E (self_address E) order with
                 | HttpRaises e => Raise e
                 | HttpResponse _ text =>
                     Ok (if str_in success_literal text then Some order else None)
                 end).
  { subst run.
    unfold place_order_offchain, bind, random_nonce, lift, _eth_sign, emit. simpl.
    fold nonce. rewrite Hm. simpl. rewrite Hsg. simpl.
    fold signed_hash. rewrite Hr, Hs, Hv. simpl.
    unfold requests_post, bind, emit. simpl. fold order.
    destruct (relay E (self_address E) order); reflexivity. }
  rewrite Hrun. split.
  - destruct (relay E (self_address E) order); reflexivity.
  - intros o Ho. destruct (relay E (self_address E) order) as [ex | status text];
      [discriminate Ho |].
    destruct (str_in success_literal text) eqn:Hin; [| discriminate Ho].
    injection Ho as <-. split; [reflexivity |]. exists status, text.
    split; [reflexivity | exact Hin].
Qed.

Lemma place_order_offchain_relay_outcome_witness :
  fst (place_order_offchain sample_env token_a (mkWad 100) token_b (mkWad 50) 10000000
         fresh_world)
  = Ok (Some (OffChainOrder.mk token_a (mkWad 100) token_b (mkWad 50) 10000000 7 maker
                27 (repeat x11 32) (repeat x22 32))) /\
  fst (place_order_offchain (with_relay sample_env (HttpResponse 200 "rejected"))
         token_a (mkWad 100) token_b (mkWad 50) 10000000 fresh_world)
  = Ok None.
Proof.
  split.
  - exact (proj1 (place_order_offchain_relay_outcome sample_env token_a (mkWad 100) token_b
                    (mkWad 50) 10000000 fresh_world sample_message sample_signature
                    (repeat x11 32) (repeat x22 32) 27
                    eq_refl eq_refl eq_refl eq_refl eq_refl)).
  - exact (proj1 (place_order_offchain_relay_outcome
                    (with_relay sample_env (HttpResponse 200 "rejected")) token_a (mkWad 100)
                    token_b (mkWad 50) 10000000 fresh_world sample_message sample_signature
                    (repeat x11 32) (repeat x22 32) 27
                    eq_refl eq_refl eq_refl eq_refl eq_refl)).
Defined.

(** C3 as stated fails twice: a timeout of the POST is not turned into a
    no-result value, it is raised; and a response with status 500 whose text
    contains the literal still yields the order. *)
Lemma place_order_offchain_relay_counterexample :
  fst (place_order_offchain (with_relay sample_env (HttpRaises Timeout))
         token_a (mkWad 100) token_b (mkWad 50) 10000000 fresh_world) = Raise Timeout /\
  fst (place_order_offchain (with_relay sample_env (HttpResponse 500 accepted_text))
         token_a (mkWad 100) token_b (mkWad 50) 10000000 fresh_world) <> Ok None.
Proof.
  split.
  - vm_compute. reflexivity.
  - vm_compute. discriminate.
Qed.

(** ** Type checks of the arguments *)

(** C8 fails on the code: [amount_filled] and [amount_available] check no
    types, so a [LogOrder], which is not an [Order], is read like one and the
    contract is called; [trade], [can_trade] and [cancel_order] reject the
    same argument by their assertion before any request, as [deposit] rejects
    an amount that is no [Wad]. *)
Theorem unchecked_order_argument_reaches_contract (E : Env) (log : LogOrder.t) (amount : Wad)
    (w : World) :
  let a := onchain_args (LogOrder.to_order log) in
  isinstance_Order (PyLogOrder log) = false /\
  amount_filled E (PyLogOrder log) w =
    (Ok (mkWad (contract_call E (call_amountFilled a))),
     mkWorld (_onchain_orders w) (handlers w) (draws w)
       (trace w ++ [NetCall (call_amountFilled a)])) /\
  amount_available E (PyLogOrder log) w =
    (Ok (mkWad (contract_call E (call_availableVolume a))),
     mkWorld (_onchain_orders w) (handlers w) (draws w)
       (trace w ++ [NetCall (call_availableVolume a)])) /\
  trade E (PyLogOrder log) (PyWad amount) w = (Raise AssertionError, w) /\
  can_trade E (PyLogOrder log) (PyWad amount) w = (Raise AssertionError, w) /\
  cancel_order E (PyLogOrder log) w = (Raise AssertionError, w) /\
  deposit E (PyInt (value amount)) w = (Raise AssertionError, w).
Proof. repeat split; reflexivity. Qed.

(** * Further properties of the client *)

(** ** Off-chain orders: equality and hashing *)

Lemma OffChainOrder__eq__true (x y : OffChainOrder.t) :
  OffChainOrder__eq__ x (PyOffChainOrder y) = true <-> x = y.
Proof.
  destruct x, y; simpl.
  rewrite !andb_true_iff, !Address__eq__true, !Wad__eq__true, !Z.eqb_eq,
    !bool_decide_eq_true.
  split.
  - intros [[[[[[[[[-> ->] ->] ->] ->] ->] ->] ->] ->] ->]. reflexivity.
  - intros [= -> -> -> -> -> -> -> -> -> ->]. tauto.
Qed.

(** X1: [OffChainOrder.__eq__] holds exactly when all ten fields agree, the
    signature included; orders it declares equal have the same hash; and two
    orders that agree on the seven order fields but carry different [v] are
    not equal. *)
Theorem offchain_order_equality_and_hash (H : Hasher) (x y : OffChainOrder.t) :
  (OffChainOrder__eq__ x (PyOffChainOrder y) = true <->
   OffChainOrder.token_get x = OffChainOrder.token_get y /\
   OffChainOrder.amount_get x = OffChainOrder.amount_get y /\
   OffChainOrder.token_give x = OffChainOrder.token_give y /\
   OffChainOrder.amount_give x = OffChainOrder.amount_give y /\
   OffChainOrder.expires x = OffChainOrder.expires y /\
   OffChainOrder.nonce x = OffChainOrder.nonce y /\
   OffChainOrder.user x = OffChainOrder.user y /\
   OffChainOrder.v x = OffChainOrder.v y /\
   OffChainOrder.r x = OffChainOrder.r y /\
   OffChainOrder.s x = OffChainOrder.s y) /\
  (OffChainOrder__eq__ x (PyOffChainOrder y) = true ->
   OffChainOrder__hash__ x = OffChainOrder__hash__ y) /\
  (OffChainOrder.v x <> OffChainOrder.v y ->
   OffChainOrder__eq__ x (PyOffChainOrder y) = false).
Proof.
  split; [| split].
  - rewrite OffChainOrder__eq__true. split.
    + intros ->. repeat split.
    + destruct x, y; simpl. intros (-> & -> & -> & -> & -> & -> & -> & -> & -> & ->).
      reflexivity.
  - intros Heq. apply OffChainOrder__eq__true in Heq. subst y. reflexivity.
  - intros Hv. destruct (OffChainOrder__eq__ x (PyOffChainOrder y)) eqn:Heq; [| reflexivity].
    apply OffChainOrder__eq__true in Heq. subst y. contradiction.
Qed.

Lemma offchain_order_equality_and_hash_witness :
  let x := OffChainOrder.mk token_a (mkWad 100) token_b (mkWad 50) 10000000 7 maker
             27 (repeat x11 32) (repeat x22 32) in
  let y := OffChainOrder.mk token_a (mkWad 100) token_b (mkWad 50) 10000000 7 maker
             28 (repeat x11 32) (repeat x22 32) in
  @OffChainOrder__hash__ sample_hasher x = @OffChainOrder__hash__ sample_hasher x /\
  OffChainOrder__eq__ x (PyOffChainOrder y) = false.
Proof.
  intros x y. split.
  - apply (offchain_order_equality_and_hash sample_hasher x x). reflexivity.
  - apply (offchain_order_equality_and_hash sample_hasher x y). discriminate.
Defined.

(** ** Methods that read an order argument *)

(** X2: [amount_filled] and [amount_available] go by the attributes of their
    argument alone: a [LogOrder] is answered exactly like the [OnChainOrder]
    [to_order] makes of it, and a [LogCancel] exactly like the
    [OffChainOrder] with the same ten fields; an argument that lacks the
    order attributes raises [AttributeError] and no request is made. *)
Theorem amount_queries_go_by_attributes (E : Env) (w : World)
    (log : LogOrder.t) (c : LogCancel.t) (other : PyVal) :
  let as_offchain :=
    OffChainOrder.mk (LogCancel.token_get c) (LogCancel.amount_get c) (LogCancel.token_give c)
      (LogCancel.amount_give c) (LogCancel.expires c) (LogCancel.nonce c) (LogCancel.user c)
      (LogCancel.v c) (LogCancel.r c) (LogCancel.s c) in
  amount_filled E (PyLogOrder log) w
    = amount_filled E (PyOnChainOrder (LogOrder.to_order log)) w /\
  amount_available E (PyLogOrder log) w
    = amount_available E (PyOnChainOrder (LogOrder.to_order log)) w /\
  amount_filled E (PyLogCancel c) w = amount_filled E (PyOffChainOrder as_offchain) w /\
  amount_available E (PyLogCancel c) w = amount_available E (PyOffChainOrder as_offchain) w /\
  (order_args other = Raise AttributeError ->
   amount_filled E other w = (Raise AttributeError, w) /\
   amount_available E other w = (Raise AttributeError, w)).
Proof.
  repeat split; try reflexivity;
    unfold amount_filled, amount_available, bind, lift; rewrite H; reflexivity.
Qed.

Lemma amount_queries_go_by_attributes_witness :
  amount_filled sample_env (PyWad (mkWad 5)) fresh_world = (Raise AttributeError, fresh_world) /\
  amount_available sample_env PyNone fresh_world = (Raise AttributeError, fresh_world).
Proof.
  split.
  - apply (amount_queries_go_by_attributes sample_env fresh_world sample_log
             (LogCancel.mk token_a (mkWad 1) token_b (mkWad 1) 1 1 maker 27 [] [])
             (PyWad (mkWad 5))).
    reflexivity.
  - apply (amount_queries_go_by_attributes sample_env fresh_world sample_log
             (LogCancel.mk token_a (mkWad 1) token_b (mkWad 1) 1 1 maker 27 [] [])
             PyNone).
    reflexivity.
Defined.


(** X4: [cancel_order] does not send the order's [user]: two on-chain orders
    that differ in nothing but their maker give the same [cancelOrder]
    transaction and the same outcome. *)
Theorem cancel_order_ignores_user (E : Env) (w : World) (x y : OnChainOrder.t) :
  OnChainOrder.token_get x = OnChainOrder.token_get y ->
  OnChainOrder.amount_get x = OnChainOrder.amount_get y ->
  OnChainOrder.token_give x = OnChainOrder.token_give y ->
  OnChainOrder.amount_give x = OnChainOrder.amount_give y ->
  OnChainOrder.expires x = OnChainOrder.expires y ->
  OnChainOrder.nonce x = OnChainOrder.nonce y ->
  cancel_order E (PyOnChainOrder x) w = cancel_order E (PyOnChainOrder y) w.
Proof.
  destruct x, y; simpl. intros -> -> -> -> -> ->. reflexivity.
Qed.

Lemma cancel_order_ignores_user_witness :
  cancel_order sample_env
    (PyOnChainOrder (OnChainOrder.mk token_a (mkWad 100) token_b (mkWad 50) 10000000 9 maker))
    fresh_world
  = cancel_order sample_env
      (PyOnChainOrder (OnChainOrder.mk token_a (mkWad 100) token_b (mkWad 50) 10000000 9 exchange))
      fresh_world.
Proof.
  apply (cancel_order_ignores_user sample_env fresh_world
           (OnChainOrder.mk token_a (mkWad 100) token_b (mkWad 50) 10000000 9 maker)
           (OnChainOrder.mk token_a (mkWad 100) token_b (mkWad 50) 10000000 9 exchange));
    reflexivity.
Defined.

(** ** Methods that assert the types of their arguments *)

(** X5: [deposit], [withdraw], [deposit_token], [withdraw_token],
    [balance_of] and [balance_of_token] raise [AssertionError] and leave the
    world as it was, with no request made, as soon as one argument is not of
    the asserted class. *)
Theorem asserting_methods_reject_before_any_request (E : Env) (w : World)
    (amount token user : PyVal) :
  ((forall a, amount <> PyWad a) ->
   deposit E amount w = (Raise AssertionError, w) /\
   withdraw E amount w = (Raise AssertionError, w) /\
   deposit_token E token amount w = (Raise AssertionError, w) /\
   withdraw_token E token amount w = (Raise AssertionError, w)) /\
  ((forall a, token <> PyAddress a) ->
   deposit_token E token amount w = (Raise AssertionError, w) /\
   withdraw_token E token amount w = (Raise AssertionError, w) /\
   balance_of_token E token user w = (Raise AssertionError, w)) /\
  ((forall a, user <> PyAddress a) ->
   balance_of E user w = (Raise AssertionError, w) /\
   balance_of_token E token user w = (Raise AssertionError, w)).
Proof.
  repeat split; intros;
    destruct amount; destruct token; destruct user;
    try reflexivity; exfalso; eapply H; reflexivity.
Qed.

Lemma asserting_methods_reject_before_any_request_witness :
  deposit sample_env (PyInt 5) fresh_world = (Raise AssertionError, fresh_world) /\
  balance_of sample_env (PyStr "0x00") fresh_world = (Raise AssertionError, fresh_world).
Proof.
  split.
  - apply (asserting_methods_reject_before_any_request sample_env fresh_world
             (PyInt 5) PyNone PyNone).
    discriminate.
  - apply (asserting_methods_reject_before_any_request sample_env fresh_world
             (PyInt 5) PyNone (PyStr "0x00")).
    discriminate.
Defined.

(** ** The canonical message identifies the order *)










(** ** The stages of [place_order_offchain] *)

(** The whole method by cases: encoding, signing, splitting the signature,
    posting. *)
Lemma place_order_offchain_run (E : Env) (token_get : Address) (amount_get : Wad)
    (token_give : Address) (amount_give : Wad) (expires : Z) (w : World) :
  let nonce := 1 + randint E (draws w) mod (2 ^ 32 - 1) in
  let w1 := mkWorld (_onchain_orders w) (handlers w) (S (draws w)) (trace w) in
  place_order_offchain E token_get amount_get token_give amount_give expires w =
  match order_message (self_address E) token_get amount_get token_give amount_give
          expires nonce with
  | Raise e => (Raise e, w1)
  | Ok message =>
      let w2 := mkWorld (_onchain_orders w) (handlers w) (S (draws w))
                  (trace w ++ [NetSign (defaultAccount E) (sha256 E message)]) in
      match eth_sign E (defaultAccount E) (sha256 E message) with
      | Raise e => (Raise e, w2)
      | Ok signature =>
          let signed_hash := str_slice 2 (String.length signature) signature in
          match bytes_fromhex (str_slice 0 64 signed_hash) with
          | Raise e => (Raise e, w2)
          | Ok r =>
              match bytes_fromhex (str_slice 64 128 signed_hash) with
              | Raise e => (Raise e, w2)
              | Ok s =>
                  match result_bind (bytes_fromhex (str_slice 128 130 signed_hash)) ord with
                  | Raise e => (Raise e, w2)
                  | Ok v =>
                      let order :=
                        OffChainOrder.mk token_get amount_get token_give amount_give expires
                          nonce (defaultAccount E) v r s in
                      let w3 := mkWorld (_onchain_orders w) (handlers w) (S (draws w))
                                  (trace w ++ [NetSign (defaultAccount E) (sha256 E message);
                                               NetPost (self_address E) order]) in
                      match relay E (self_address E) order with
                      | HttpRaises e => (Raise e, w3)
                      | HttpResponse _ text =>
                          (Ok (if str_in success_literal text then Some order else None), w3)
                      end
                  end
              end
          end
      end
  end.
Proof.
  intros nonce w1.
  unfold place_order_offchain, bind, random_nonce, lift, _eth_sign, emit. simpl.
  fold nonce.
  destruct (order_message _ _ _ _ _ _ _) as [message | e1]; [| reflexivity]. simpl.
  destruct (eth_sign E _ _) as [signature | e2]; [| reflexivity]. simpl.
  destruct (bytes_fromhex (str_slice 0 64 _)) as [r | e3]; [| reflexivity]. simpl.
  destruct (bytes_fromhex (str_slice 64 128 _)) as [s | e4]; [| reflexivity]. simpl.
  destruct (result_bind _ ord) as [v | e5]; [| reflexivity]. simpl.
  unfold requests_post, bind, emit. simpl.
  destruct (relay E _ _); simpl; rewrite <- app_assoc; reflexivity.
Qed.



(** ** Splitting the signature *)

Lemma substring_length_le (s : string) :
  forall n m, (String.length (substring n m s) <= m)%nat /\
              (String.length (substring n m s) <= String.length s - n)%nat.
Proof.
  induction s as [| c s IH]; intros n m.
  - destruct n, m; simpl; lia.
  - destruct n as [| n].
    + destruct m as [| m]; simpl; [lia |]. destruct (IH 0%nat m). lia.
    + simpl. destruct (IH n m). lia.
Qed.

Lemma substring_0_all (s : string) : substring 0 (String.length s) s = s.
Proof. induction s as [| c s IH]; simpl; [reflexivity | rewrite IH; reflexivity]. Qed.

Lemma substring_0_app (s1 s2 : string) :
  substring 0 (String.length s1) (s1 ++ s2)%string = s1.
Proof. induction s1 as [| c s1 IH]; simpl; [destruct s2 | rewrite IH]; reflexivity. Qed.

Lemma substring_skip_app (s1 s2 : string) (k m : nat) :
  substring (String.length s1 + k) m (s1 ++ s2)%string = substring k m s2.
Proof. induction s1 as [| c s1 IH]; simpl; [reflexivity | exact IH]. Qed.

Lemma hexlify_app (a b : bytes) : hexlify (a ++ b) = (hexlify a ++ hexlify b)%string.
Proof. induction a as [| x a IH]; simpl; [reflexivity | rewrite IH; reflexivity]. Qed.

Lemma length_hexlify (b : bytes) : String.length (hexlify b) = (2 * length b)%nat.
Proof. induction b as [| x b IH]; simpl; [reflexivity | rewrite IH; lia]. Qed.

Lemma fromhex_hexlify_cons (x : byte) (rest : string) :
  fromhex (String (hex_char (Z_of_byte x / 16)) (String (hex_char (Z_of_byte x mod 16)) rest))
  = match fromhex rest with Some bs => Some (x :: bs) | None => None end.
Proof. destruct x; reflexivity. Qed.

(** [bytes.fromhex(b.hex()) == b] *)
Lemma fromhex_hexlify (b : bytes) : fromhex (hexlify b) = Some b.
Proof.
  induction b as [| x b IH]; [reflexivity |].
  cbn [hexlify]. rewrite fromhex_hexlify_cons, IH. reflexivity.
Qed.

(** [("0x" + h)[2:] == h] *)
Lemma str_slice_drop_prefix (c1 c2 : ascii) (h : string) :
  str_slice 2 (String.length (String c1 (String c2 h))) (String c1 (String c2 h)) = h.
Proof.
  unfold str_slice.
  replace (String.length (String c1 (String c2 h)) - 2)%nat with (String.length h)
    by (simpl; lia).
  cbn [substring]. apply substring_0_all.
Qed.

(** X8: when the signer answers with the hexadecimal text of a 65-byte
    signature behind a [0x] prefix, the order that is posted, and returned if
    the relay accepts it, carries bytes 0-31 of the signature as [r], bytes
    32-63 as [s] and byte 64, as an integer without offset, as [v]; its other
    fields are the arguments, the drawn nonce and the default account. *)
Theorem place_order_offchain_splits_signature (E : Env) (token_get : Address)
    (amount_get : Wad) (token_give : Address) (amount_give : Wad) (expires : Z) (w : World)
    (message r s : bytes) (v : byte) :
  let nonce := 1 + randint E (draws w) mod (2 ^ 32 - 1) in
  let order := OffChainOrder.mk token_get amount_get token_give amount_give expires nonce
                 (defaultAccount E) (Z_of_byte v) r s in
  let run := place_order_offchain E token_get amount_get token_give amount_give expires w in
  order_message (self_address E) token_get amount_get token_give amount_give expires nonce
    = Ok message ->
  length r = 32%nat ->
  length s = 32%nat ->
  eth_sign E (defaultAccount E) (sha256 E message)
    = Ok (String.append "0x" (hexlify (r ++ s ++ [v]))) ->
  trace (snd run) = trace w ++ [NetSign (defaultAccount E) (sha256 E message);
                                 NetPost (self_address E) order] /\
  (fst run = Ok (Some order) \/ fst run = Ok None \/ exists e, fst run = Raise e) /\
  (forall status_code text,
     relay E (self_address E) order = HttpResponse status_code text ->
     str_in success_literal text = true ->
     fst run = Ok (Some order)).
Proof.
  intros nonce order run Hm Hr Hs Hsg. subst run.
  rewrite place_order_offchain_run. fold nonce. rewrite Hm, Hsg.
  set (sg := String.append "0x" (hexlify (r ++ s ++ [v]))).
  assert (Hsh : str_slice 2 (String.length sg) sg = hexlify (r ++ s ++ [v]))
    by apply str_slice_drop_prefix.
  cbv zeta. rewrite Hsh, !hexlify_app.
  assert (Lr : String.length (hexlify r) = 64%nat) by (rewrite length_hexlify, Hr; reflexivity).
  assert (Ls : String.length (hexlify s) = 64%nat) by (rewrite length_hexlify, Hs; reflexivity).
  assert (H1 : str_slice 0 64 (hexlify r ++ hexlify s ++ hexlify [v])%string = hexlify r).
  { unfold str_slice. change (64 - 0)%nat with 64%nat. rewrite <- Lr. apply substring_0_app. }
  assert (H2 : str_slice 64 128 (hexlify r ++ hexlify s ++ hexlify [v])%string = hexlify s).
  { unfold str_slice. change (128 - 64)%nat with 64%nat.
    replace 64%nat with (String.length (hexlify r) + 0)%nat at 1 by lia.
    rewrite substring_skip_app, <- Ls. apply substring_0_app. }
  assert (H3 : str_slice 128 130 (hexlify r ++ hexlify s ++ hexlify [v])%string = hexlify [v]).
  { unfold str_slice. change (130 - 128)%nat with 2%nat.
    replace 128%nat with (String.length (hexlify r) + 64)%nat by lia.
    rewrite substring_skip_app.
    replace 64%nat with (String.length (hexlify s) + 0)%nat by lia.
    rewrite substring_skip_app. reflexivity. }
  rewrite H1, H2, H3. unfold bytes_fromhex. rewrite !fromhex_hexlify. cbn [result_bind ord].
  fold order.
  destruct (relay E (self_address E) order) as [ex | status text] eqn:Hrelay; cbn [fst snd trace].
  - split; [reflexivity |]. split; [right; right; eauto |]. intros ? ? [=].
  - split; [reflexivity |]. split.
    + destruct (str_in success_literal text); [left | right; left]; reflexivity.
    + intros sc tx [= _ <-] ->. reflexivity.
Qed.

Lemma place_order_offchain_splits_signature_witness :
  fst (place_order_offchain
         (with_signer sample_env
            (Ok (String.append "0x" (hexlify (repeat xab 32 ++ repeat xcd 32 ++ [x1c])))))
         token_a (mkWad 100) token_b (mkWad 50) 10000000 fresh_world)
  = Ok (Some (OffChainOrder.mk token_a (mkWad 100) token_b (mkWad 50) 10000000 7 maker
                28 (repeat xab 32) (repeat xcd 32))).
Proof.
  refine (proj2 (proj2 (place_order_offchain_splits_signature
                          (with_signer sample_env
                             (Ok (String.append "0x"
                                    (hexlify (repeat xab 32 ++ repeat xcd 32 ++ [x1c])))))
                          token_a (mkWad 100) token_b
                          (mkWad 50) 10000000 fresh_world sample_message
                          (repeat xab 32) (repeat xcd 32) x1c
                          eq_refl eq_refl eq_refl eq_refl))
            200 accepted_text eq_refl eq_refl).
Defined.

(** X9: when the signing request fails, or the signer's text is shorter
    than the 132 characters of a 65-byte signature, [place_order_offchain]
    raises and posts nothing: the sign request is the only request it has
    made. *)
Theorem place_order_offchain_posts_only_signed_orders (E : Env) (token_get : Address)
    (amount_get : Wad) (token_give : Address) (amount_give : Wad) (expires : Z) (w : World)
    (message : bytes) :
  let nonce := 1 + randint E (draws w) mod (2 ^ 32 - 1) in
  let run := place_order_offchain E token_get amount_get token_give amount_give expires w in
  order_message (self_address E) token_get amount_get token_give amount_give expires nonce
    = Ok message ->
  (exists e, eth_sign E (defaultAccount E) (sha256 E message) = Raise e) \/
  (exists signature,
     eth_sign E (defaultAccount E) (sha256 E message) = Ok signature /\
     (String.length signature < 132)%nat) ->
  (exists e, fst run = Raise e) /\
  trace (snd run) = trace w ++ [NetSign (defaultAccount E) (sha256 E message)].
Proof.
  intros nonce run Hm Hsig. subst run.
  rewrite place_order_offchain_run. fold nonce. rewrite Hm.
  destruct Hsig as [[e He] | (sg & Hsg & Hlen)].
  - rewrite He. split; [eauto | reflexivity].
  - rewrite Hsg. cbv zeta.
    set (sh := str_slice 2 (String.length sg) sg).
    assert (Hsh : (String.length sh < 130)%nat).
    { subst sh. unfold str_slice. pose proof (substring_length_le sg 2 (String.length sg - 2)).
      lia. }
    assert (Hv : exists e, result_bind (bytes_fromhex (str_slice 128 130 sh)) ord = Raise e).
    { unfold str_slice. change (130 - 128)%nat with 2%nat.
      pose proof (substring_length_le sh 128 2) as [_ Hle].
      destruct (substring 128 2 sh) as [| c1 [| c2 rest]]; simpl in Hle.
      - eexists. reflexivity.
      - unfold bytes_fromhex. simpl. eexists. reflexivity.
      - lia. }
    destruct Hv as [ev Hv].
    destruct (bytes_fromhex (str_slice 0 64 sh)); [| split; [eauto | reflexivity]].
    destruct (bytes_fromhex (str_slice 64 128 sh)); [| split; [eauto | reflexivity]].
    rewrite Hv. split; [eauto | reflexivity].
Qed.

Lemma place_order_offchain_posts_only_signed_orders_witness :
  exists e,
    fst (place_order_offchain (with_signer sample_env (Ok "0x1b"%string))
           token_a (mkWad 100) token_b (mkWad 50) 10000000 fresh_world) = Raise e.
Proof.
  refine (proj1 (place_order_offchain_posts_only_signed_orders
                   (with_signer sample_env (Ok "0x1b"%string)) token_a (mkWad 100) token_b
                   (mkWad 50) 10000000 fresh_world sample_message eq_refl _)).
  right. exists "0x1b"%string. split; [reflexivity |]. simpl. lia.
Defined.

(** ** Queries of the tracker, one after the other *)

(** X10: a query run again against the same chain returns the same list and
    leaves the tracked set as the first query left it, whether or not the
    first one had to initialise the tracker. *)
Theorem active_onchain_orders_idempotent (E : Env) (w : World) :
  let first := active_onchain_orders E w in
  let second := active_onchain_orders E (snd first) in
  fst second = fst first /\
  _onchain_orders (snd second) = _onchain_orders (snd first) /\
  handlers (snd second) = handlers (snd first).
Proof.
  intros first second.
  assert (H1 : exists s1 w1,
             first = (Ok (elements s1), w1) /\ _onchain_orders w1 = Some s1 /\
             forall o, o ∈ s1 -> reported_filled E o <> value (OnChainOrder.amount_get o)).
  { subst first. destruct (_onchain_orders w) as [s |] eqn:Hs.
    - destruct (active_onchain_orders_initialised E w s Hs) as (s1 & Hrun & Hmem).
      eexists s1, _. split; [exact Hrun |]. split; [reflexivity |].
      intros o Ho. apply Hmem in Ho. tauto.
    - destruct (first_query_run E w Hs) as (s1 & Hrun & Hmem).
      eexists s1, _. split; [exact Hrun |]. split; [reflexivity |].
      intros o Ho. apply Hmem in Ho. tauto. }
  destruct H1 as (s1 & w1 & Hfirst & Hs1 & Hopen).
  subst second. rewrite Hfirst. cbn [fst snd].
  destruct (active_onchain_orders_initialised E w1 s1 Hs1) as (s2 & Hrun & Hmem).
  rewrite Hrun. cbn [fst snd _onchain_orders handlers].
  assert (s2 = s1) as ->.
  { apply set_eq. intros o. rewrite Hmem. split; [tauto |]. intros Ho. split; auto. }
  rewrite Hs1. repeat split.
Qed.

(** X11: a query of an initialised tracker adds nothing and prunes on
    equality alone: the returned list has no repetitions and holds only
    orders that were tracked; an order whose reported filled amount differs
    from its [amount_get], even by exceeding it, is kept; and the query makes
    one [amountFilled] call per tracked order and no other request. *)
Theorem active_onchain_orders_prunes_on_equality_only (E : Env) (w : World)
    (s : gset OnChainOrder.t) :
  _onchain_orders w = Some s ->
  exists returned,
    fst (active_onchain_orders E w) = Ok returned /\
    NoDup returned /\
    (forall o, o ∈ returned -> o ∈ s) /\
    (forall o, o ∈ s -> value (OnChainOrder.amount_get o) < reported_filled E o ->
               o ∈ returned) /\
    trace (snd (active_onchain_orders E w))
      = trace w ++ map (fun o => NetCall (call_amountFilled (onchain_args o))) (elements s) /\
    length (trace (snd (active_onchain_orders E w))) = (length (trace w) + size s)%nat.
Proof.
  intros Hs.
  destruct (active_onchain_orders_initialised E w s Hs) as (s' & Hrun & Hmem).
  exists (elements s'). rewrite Hrun. cbn [fst snd trace].
  split; [reflexivity |]. split; [apply NoDup_elements |].
  split; [| split; [| split]].
  - intros o Ho. apply elem_of_elements, Hmem in Ho. tauto.
  - intros o Ho Hover. apply elem_of_elements, Hmem. split; [exact Ho | lia].
  - reflexivity.
  - rewrite length_app, length_map. reflexivity.
Qed.

Lemma active_onchain_orders_prunes_on_equality_only_witness :
  exists returned,
    fst (active_onchain_orders sample_env
           (mkWorld (Some {[LogOrder.to_order sample_log]}) [] 0 [])) = Ok returned /\
    NoDup returned.
Proof.
  destruct (active_onchain_orders_prunes_on_equality_only sample_env
              (mkWorld (Some {[LogOrder.to_order sample_log]}) [] 0 [])
              {[LogOrder.to_order sample_log]} eq_refl) as (returned & H1 & H2 & _).
  exists returned. split; [exact H1 | exact H2].
Defined.

(** ** Delivery of [Order] logs *)

Lemma set_onchain_orders_twice (a b : option (gset OnChainOrder.t)) (w : World) :
  set_onchain_orders a (set_onchain_orders b w) = set_onchain_orders a w.
Proof. reflexivity. Qed.

(** Running handlers on a tracker that holds a set: the log's order joins the
    set if the tracker's handler is among them, and nothing else changes. *)
Lemma run_handlers_initialised (log : LogOrder.t) (hs : list (EventName * Handler)) :
  forall (w : World) (s : gset OnChainOrder.t),
    _onchain_orders w = Some s ->
    for_each hs (fun eh => run_handler (snd eh) log) w =
    (Ok tt,
     if existsb is_tracker_handler hs
     then set_onchain_orders (Some ({[LogOrder.to_order log]} ∪ s)) w
     else w).
Proof.
  induction hs as [| [ev h] hs IH]; intros w s Hs; [reflexivity |].
  cbn [for_each]. unfold bind. destruct h as [| id]; cbn [snd run_handler].
  - unfold onchain_orders_add at 1. rewrite Hs.
    rewrite (IH _ ({[LogOrder.to_order log]} ∪ s)) by reflexivity.
    cbn [existsb is_tracker_handler snd orb].
    rewrite set_onchain_orders_twice.
    rewrite (assoc_L (∪)), (idemp_L (∪) ({[LogOrder.to_order log]} : gset OnChainOrder.t)).
    destruct (existsb is_tracker_handler hs); reflexivity.
  - unfold ret. rewrite (IH w s Hs). reflexivity.
Qed.


Lemma tracker_among_order_handlers (hs : list (EventName * Handler)) :
  existsb is_tracker_handler
    (List.filter (fun eh => match fst eh with Order => true | Cancel => false end) hs)
  = negb (length (List.filter is_tracker_subscription hs) =? 0)%nat.
Proof.
  induction hs as [| [[|] [| id]] hs IH]; simpl; try exact IH; reflexivity.
Qed.

(** X12: on a tracker that holds a set and whose handler is subscribed, the
    delivery of an [Order] log never raises, makes the log's order a member
    of the tracked set and changes nothing else; the set grows by one order
    at most; and delivering the same log a second time changes nothing. *)
Theorem deliver_order_inserts_once (log : LogOrder.t) (w : World) (s : gset OnChainOrder.t) :
  _onchain_orders w = Some s ->
  tracker_consistent w ->
  let delivered := deliver_order log w in
  delivered = (Ok tt, set_onchain_orders (Some ({[LogOrder.to_order log]} ∪ s)) w) /\
  (size ({[LogOrder.to_order log]} ∪ s) <= S (size s))%nat /\
  (LogOrder.to_order log ∈ s -> delivered = (Ok tt, w)) /\
  deliver_order log (snd delivered) = (Ok tt, snd delivered).
Proof.
  intros Hs Hc delivered.
  assert (Hd : delivered
               = (Ok tt, set_onchain_orders (Some ({[LogOrder.to_order log]} ∪ s)) w)).
  { subst delivered. unfold deliver_order.
    rewrite (run_handlers_initialised log _ w s Hs), tracker_among_order_handlers.
    unfold tracker_consistent, tracker_subscriptions in Hc. rewrite Hs in Hc. rewrite Hc.
    reflexivity. }
  split; [exact Hd |]. split; [| split].
  - rewrite size_union_alt, size_singleton.
    assert (Hsub : s ∖ {[LogOrder.to_order log]} ⊆ s)
      by (intros x Hx; apply elem_of_difference in Hx; tauto).
    apply subseteq_size in Hsub. lia.
  - intros Hin. subst delivered. apply (deliver_order_known log w s Hs Hin).
  - rewrite Hd. cbn [snd].
    apply (deliver_order_known log _ ({[LogOrder.to_order log]} ∪ s)); [reflexivity |].
    apply elem_of_union_l, elem_of_singleton. reflexivity.
Qed.

Lemma deliver_order_inserts_once_witness :
  let w := mkWorld (Some ∅) [(Order, TrackerHandler)] 0 [] in
  deliver_order sample_log w
  = (Ok tt, set_onchain_orders (Some ({[LogOrder.to_order sample_log]} ∪ ∅)) w).
Proof.
  intros w.
  exact (proj1 (deliver_order_inserts_once sample_log w ∅ eq_refl eq_refl)).
Defined.

(** ** What the operations leave alone *)

Lemma tracker_subscriptions_caller (hs : list (EventName * Handler)) (ev : EventName)
    (id : nat) :
  List.filter is_tracker_subscription (hs ++ [(ev, CallerHandler id)])
  = List.filter is_tracker_subscription hs.
Proof.
  rewrite List.filter_app. destruct ev; simpl; apply app_nil_r.
Qed.

Ltac frame_by_cases :=
  (split; [| split]);
  first [ reflexivity
        | apply tracker_subscriptions_caller
        | exists []; symmetry; apply app_nil_r
        | eexists; reflexivity
        | eexists; rewrite <- app_assoc; reflexivity ].

(** Every operation but the three that write the tracker leaves the tracked
    set and the tracker's subscriptions as they were, and only adds to the
    trace. *)
Lemma step_frame (E : Env) (op : Op) (w : World) :
  writes_tracker op = false ->
  _onchain_orders (step E op w) = _onchain_orders w /\
  List.filter is_tracker_subscription (handlers (step E op w))
    = List.filter is_tracker_subscription (handlers w) /\
  exists more, trace (step E op w) = trace w ++ more.
Proof.
  intros Hop. destruct op; try discriminate Hop; cbn [step].
  - destruct amount; frame_by_cases.
  - destruct amount; frame_by_cases.
  - destruct user; frame_by_cases.
  - destruct token; try frame_by_cases; destruct amount; frame_by_cases.
  - destruct token; try frame_by_cases; destruct amount; frame_by_cases.
  - destruct token; try frame_by_cases; destruct user; frame_by_cases.
  - rewrite place_order_offchain_run. cbv zeta.
    destruct (order_message _ _ _ _ _ _ _); [| frame_by_cases].
    destruct (eth_sign E _ _) as [signature |]; [| frame_by_cases].
    destruct (bytes_fromhex (str_slice 0 64 _)); [| frame_by_cases].
    destruct (bytes_fromhex (str_slice 64 128 _)); [| frame_by_cases].
    destruct (result_bind _ ord); [| frame_by_cases].
    destruct (relay E _ _); frame_by_cases.
  - destruct order; frame_by_cases.
  - destruct order; frame_by_cases.
  - destruct order; try frame_by_cases; destruct amount; frame_by_cases.
  - destruct order; try frame_by_cases; destruct amount; frame_by_cases.
  - destruct order; frame_by_cases.
  - frame_by_cases.
  - frame_by_cases.
  - frame_by_cases.
  - frame_by_cases.
Qed.

(** Handlers change nothing but the tracked set. *)
Lemma run_handlers_frame (log : LogOrder.t) (hs : list (EventName * Handler)) :
  forall w : World,
    let w' := snd (for_each hs (fun eh => run_handler (snd eh) log) w) in
    handlers w' = handlers w /\ draws w' = draws w /\ trace w' = trace w.
Proof.
  induction hs as [| [ev h] hs IH]; intros w; [repeat split |].
  cbn [for_each]. unfold bind. destruct h as [| id]; cbn [snd run_handler].
  - unfold onchain_orders_add. destruct (_onchain_orders w) as [s |]; [| repeat split].
    destruct (IH (set_onchain_orders (Some ({[LogOrder.to_order log]} ∪ s)) w))
      as (H1 & H2 & H3).
    repeat split; assumption.
  - unfold ret. apply IH.
Qed.

(** X13: the tracked set is written by [active_onchain_orders],
    [place_order_onchain] and the delivery of [Order] logs only: every other
    operation, whatever its arguments and whether it returns or raises,
    leaves the set and the tracker's subscription untouched; and no operation
    at all removes a request from the trace. *)
Theorem tracker_written_by_three_operations (E : Env) (op : Op) (w : World) :
  (writes_tracker op = false ->
   _onchain_orders (step E op w) = _onchain_orders w /\
   tracker_subscriptions (step E op w) = tracker_subscriptions w) /\
  (exists more, trace (step E op w) = trace w ++ more).
Proof.
  split.
  - intros Hop. destruct (step_frame E op w Hop) as (H1 & H2 & _).
    split; [exact H1 |]. unfold tracker_subscriptions. rewrite H2. reflexivity.
  - destruct (writes_tracker op) eqn:Hop.
    + destruct op; try discriminate Hop; cbn [step].
      * destruct (_onchain_orders w) as [s |] eqn:Hs.
        -- destruct (active_onchain_orders_initialised E w s Hs) as (s' & -> & _).
           eexists. reflexivity.
        -- destruct (first_query_run E w Hs) as (s' & -> & _). eexists. reflexivity.
      * rewrite place_order_onchain_run. cbn [snd].
        destruct (transact_receipt E _), (_onchain_orders w); eexists; reflexivity.
      * exists []. rewrite app_nil_r. unfold deliver_order.
        apply (run_handlers_frame log _ w).
    + destruct (step_frame E op w Hop) as (_ & _ & H3). exact H3.
Qed.

Lemma tracker_written_by_three_operations_witness :
  _onchain_orders
    (step sample_env (op_place_order_offchain token_a (mkWad 100) token_b (mkWad 50) 10000000)
       (mkWorld (Some ∅) [(Order, TrackerHandler)] 0 []))
  = Some ∅.
Proof.
  apply (tracker_written_by_three_operations sample_env
           (op_place_order_offchain token_a (mkWad 100) token_b (mkWad 50) 10000000)
           (mkWorld (Some ∅) [(Order, TrackerHandler)] 0 [])).
  reflexivity.
Defined.

(** ** An invariant of every run *)






(** ** Approvals *)

Lemma for_each_app {A : Type} (l1 l2 : list A) (body : A -> M unit) (w : World) :
  for_each (l1 ++ l2) body w =
  match for_each l1 body w with
  | (Ok _, w1) => for_each l2 body w1
  | (Raise e, w1) => (Raise e, w1)
  end.
Proof.
  revert w. induction l1 as [| x l1 IH]; intros w; [reflexivity |].
  cbn [app for_each]. unfold bind.
  destruct (body x w) as [[[] | e] w']; [apply IH | reflexivity].
Qed.

(** X15: [approve] runs the approval function on the tokens in list order,
    each time with the exchange's own address and the name ['EtherDelta'];
    when the function raises on a token, the exception reaches the caller
    and the tokens after it are never approved; [approve] makes no request of
    its own, so on an empty list the world is unchanged. *)
Theorem approve_stops_at_first_failure {Token : Type} (E : Env)
    (before after : list Token) (token : Token)
    (approval_function : Token -> Address -> string -> M unit)
    (w w1 w2 : World) (e : Exn) :
  approve E before approval_function w = (Ok tt, w1) ->
  approval_function token (self_address E) "EtherDelta"%string w1 = (Raise e, w2) ->
  approve E (before ++ token :: after) approval_function w = (Raise e, w2) /\
  approve E (before ++ [token]) approval_function w
    = approve E (before ++ token :: after) approval_function w /\
  approve E [] approval_function w = (Ok tt, w).
Proof.
  intros Hbefore Hfail. unfold approve in *.
  rewrite !for_each_app, Hbefore. cbn [for_each]. unfold bind. rewrite Hfail.
  repeat split.
Qed.

Lemma approve_stops_at_first_failure_witness :
  approve sample_env [1; 2; 3] sample_approval fresh_world = (Raise ValueError, fresh_world).
Proof.
  apply (approve_stops_at_first_failure sample_env [1] [3] 2 sample_approval
           fresh_world fresh_world fresh_world ValueError);
    reflexivity.
Defined.
